(** * A shallow embedding of the Harry Potter RAG pipeline

    The development follows [src/config.py], [src/groq_client.py] and
    [src/rag_pipeline.py].  Python [str] values are sequences of Unicode
    code points; calls to the outside world (the vector-store retriever,
    [requests.post], [time.sleep]) are answered by an explicit [world]
    and recorded in a trace; exceptions are an explicit result
    constructor, with [try]/[except] as a combinator.  Console output
    ([print]) has no influence on control flow and is left out of the
    trace. *)

From Stdlib Require Import Floats String Ascii DecimalString.
From stdpp Require Import base numbers list gmap.

Set Default Proof Using "Type".
Set Warnings "-inexact-float".
Local Open Scope Z_scope.

(** ** Python strings *)

Module PyStr.

(** A Python [str]: a sequence of code points. *)
Definition pystr := list N.

Definition bytes_of (s : string) : list N :=
  map N_of_ascii (list_ascii_of_string s).

(** UTF-8 decoding, used only to write the program's string constants
    the way the source file spells them. *)
Fixpoint utf8_decode (bs : list N) (need : nat) (acc : N) : pystr :=
  match bs with
  | [] => []
  | b :: bs' =>
      match need with
      | O =>
          if (b <? 128)%N then b :: utf8_decode bs' 0 0%N
          else if (b <? 224)%N then utf8_decode bs' 1 (b - 192)%N
          else if (b <? 240)%N then utf8_decode bs' 2 (b - 224)%N
          else utf8_decode bs' 3 (b - 240)%N
      | S O => (acc * 64 + (b - 128))%N :: utf8_decode bs' 0 0%N
      | S n => utf8_decode bs' n (acc * 64 + (b - 128))%N
      end
  end.

Definition py (s : string) : pystr := utf8_decode (bytes_of s) 0 0%N.
Arguments py s%_string.

Definition nl : pystr := [10%N].

(** Truthiness of a sequence: [bool(xs)]. *)
Definition truthy {A} (xs : list A) : bool :=
  match xs with
  | [] => false
  | _ :: _ => true
  end.

Fixpoint str_eqb (a b : pystr) : bool :=
  match a, b with
  | [], [] => true
  | x :: a', y :: b' => (x =? y)%N && str_eqb a' b'
  | _, _ => false
  end.

(** [s.startswith(p)] *)
Fixpoint startswith (p s : pystr) : bool :=
  match p, s with
  | [], _ => true
  | _ :: _, [] => false
  | x :: p', y :: s' => (x =? y)%N && startswith p' s'
  end.

(** [sub in s] *)
Fixpoint str_in (sub s : pystr) : bool :=
  startswith sub s ||
  match s with
  | [] => false
  | _ :: s' => str_in sub s'
  end.

(** [any(w in s for w in words)] *)
Definition any_in (words : list pystr) (s : pystr) : bool :=
  existsb (fun w => str_in w s) words.

(** [str.isspace] on one code point: the code points with the Unicode
    White_Space property or bidirectional class WS, B or S. *)
Definition isspace (c : N) : bool :=
  ((9 <=? c) && (c <=? 13) || (28 <=? c) && (c <=? 32)
   || (c =? 133) || (c =? 160) || (c =? 5760)
   || (8192 <=? c) && (c <=? 8202)
   || (c =? 8232) || (c =? 8233) || (c =? 8239) || (c =? 8287)
   || (c =? 12288))%N.

Fixpoint lstrip (s : pystr) : pystr :=
  match s with
  | [] => []
  | c :: s' => if isspace c then lstrip s' else s
  end.

Definition rstrip (s : pystr) : pystr := rev (lstrip (rev s)).

(** [s.strip()] *)
Definition strip (s : pystr) : pystr := rstrip (lstrip s).

(** [s.split()]: the maximal runs of non-whitespace; [cur] is the run
    being read, in reverse. *)
Fixpoint split_from (cur : pystr) (s : pystr) : list pystr :=
  match s with
  | [] => match cur with [] => [] | _ => [rev cur] end
  | c :: s' =>
      if isspace c then
        match cur with
        | [] => split_from [] s'
        | _ => rev cur :: split_from [] s'
        end
      else split_from (c :: cur) s'
  end.

Definition split (s : pystr) : list pystr := split_from [] s.

(** [sep.join(parts)] *)
Fixpoint join (sep : pystr) (parts : list pystr) : pystr :=
  match parts with
  | [] => []
  | [p] => p
  | p :: ps => p ++ sep ++ join sep ps
  end.

(** [s.replace(a, b)] for one-character [a] and [b]. *)
Definition replace_char (a b : N) (s : pystr) : pystr :=
  map (fun c => if (c =? a)%N then b else c) s.

Definition is_upper (c : N) : bool := ((65 <=? c) && (c <=? 90))%N.
Definition is_lower (c : N) : bool := ((97 <=? c) && (c <=? 122))%N.

(** [str.lower] restricted to ASCII text, where it coincides with
    Python's: the letters A-Z move down, every other code point stays. *)
Definition ascii_lower (s : pystr) : pystr :=
  map (fun c => if is_upper c then (c + 32)%N else c) s.

(** [s.title()] for ASCII text: a letter that follows a letter is
    lowered, a letter that follows anything else is raised. *)
Fixpoint title_from (prev_cased : bool) (s : pystr) : pystr :=
  match s with
  | [] => []
  | c :: s' =>
      if is_upper c then
        (if prev_cased then (c + 32)%N else c) :: title_from true s'
      else if is_lower c then
        (if prev_cased then c else (c - 32)%N) :: title_from true s'
      else c :: title_from false s'
  end.

Definition title (s : pystr) : pystr := title_from false s.

(** [str(n)] for a non-negative integer. *)
Definition str_of_nat (n : nat) : pystr :=
  py (NilEmpty.string_of_uint (Nat.to_uint n)).

End PyStr.
Export PyStr.


(** What the Python runtime supplies and the embedding leaves open:
    [str.lower] with its full Unicode case mapping, and the built-in
    [hash] on strings, which is salted per process. *)
Class PyRuntime := {
  str_lower : pystr -> pystr;
  str_hash : pystr -> Z
}.

(** ** src/config.py *)

Module config.

Definition DEFAULT_LLM_MODEL : pystr := py "llama-3.1-8b-instant".
Definition FALLBACK_MODELS : list pystr :=
  [py "mixtral-8x7b-32768"; py "llama3-8b-8192"; py "llama2-70b-4096"].
Definition RETRIEVAL_K : Z := 5.
Definition MAX_TOKENS : Z := 1500.
Definition TEMPERATURE : float := 0.7%float.
Definition TOP_P : float := 0.9%float.
Definition REQUEST_TIMEOUT : Z := 45.
Definition MAX_RETRIES : Z := 3.

End config.

(** ** Effects: exceptions, the outside world, traces *)

(** The exception classes the program distinguishes in an [except]
    clause or raises itself; all are subclasses of [Exception]. *)
Inductive exn_class :=
| Timeout          (* requests.exceptions.Timeout *)
| AttributeError
| RuntimeError
| OtherException.

(** An exception with its [str(e)]. *)
Record exn := Exn { exn_class_of : exn_class; exn_str : pystr }.

Inductive result (A : Type) :=
| Ok (a : A)
| Raise (e : exn).
Arguments Ok {A} a.
Arguments Raise {A} e.

Record message := Message { role : pystr; content : pystr }.

(** The JSON body of a chat-completion request. *)
Record payload := Payload {
  model : pystr;
  messages : list message;
  max_tokens : Z;
  temperature : float;
  top_p : float
}.

(** The arguments of one [requests.post] call. *)
Record request := Request {
  rq_url : pystr;
  rq_headers : list (pystr * pystr);
  rq_json : payload;
  rq_timeout : Z
}.

(** What the program reads of an HTTP response: the status, and
    [response.json()["choices"][0]["message"]["content"]], which raises
    when the body is not JSON or lacks that path. *)
Record response := Response {
  status_code : Z;
  json_content : result pystr
}.

(** A retrieved document; only [page_content] is read. *)
Record document := Document { page_content : pystr }.

Inductive event :=
| RetrieverInvoke (query : pystr)
| RetrieverGetRelevantDocuments (query : pystr)
| ChatCall (prompt : pystr)
| Post (rq : request) (reply : result response)
| Sleep (seconds : Z).

Definition trace := list event.

Definition is_post (e : event) : bool :=
  match e with Post _ _ => true | _ => false end.

(** Events of the completion client: the call itself and its HTTP
    requests. *)
Definition is_client_event (e : event) : bool :=
  match e with ChatCall _ | Post _ _ => true | _ => false end.

Fixpoint count_posts (tr : list event) : nat :=
  match tr with
  | [] => O
  | e :: tr' => ((if is_post e then 1 else 0) + count_posts tr')%nat
  end.

(** The collaborators.  [requests_post n rq] is the outcome of the call
    made after [n] earlier ones; the retriever answers by query. *)
Record world := World {
  GROQ_API_KEY : pystr;
  retriever_invoke : pystr -> result (list document);
  retriever_get_relevant_documents : pystr -> result (list document);
  requests_post : nat -> request -> result response
}.

(** Computations: read the trace so far, return a value or raise, and
    extend the trace. *)
Definition M (A : Type) : Type := trace -> result A * trace.

Definition ret {A} (a : A) : M A := fun tr => (Ok a, tr).

Definition raise {A} (e : exn) : M A := fun tr => (Raise e, tr).

Definition bind {A B} (m : M A) (k : A -> M B) : M B :=
  fun tr =>
    match m tr with
    | (Ok a, tr') => k a tr'
    | (Raise e, tr') => (Raise e, tr')
    end.

Declare Scope py_scope.
Delimit Scope py_scope with py.
Notation "x <- m ;; k" := (bind m (fun x => k))
  (at level 100, m at next level, right associativity) : py_scope.
Notation "m ;; k" := (bind m (fun _ => k))
  (at level 100, right associativity) : py_scope.
Local Open Scope py_scope.

(** [try: body  except Exception as e: handler e] *)
Definition try_except {A} (body : M A) (handler : exn -> M A) : M A :=
  fun tr =>
    match body tr with
    | (Ok a, tr') => (Ok a, tr')
    | (Raise e, tr') => handler e tr'
    end.

Definition lift {A} (r : result A) : M A := fun tr => (r, tr).

Definition emit (e : event) : M unit := fun tr => (Ok tt, tr ++ [e]).

(** [time.sleep(seconds)] *)
Definition sleep (seconds : Z) : M unit := emit (Sleep seconds).

(** [requests.post(...)]: the reply is logged with the call. *)
Definition post (w : world) (rq : request) : M response :=
  fun tr =>
    let reply := requests_post w (count_posts tr) rq in
    (reply, tr ++ [Post rq reply]).

Definition invoke (w : world) (query : pystr) : M (list document) :=
  emit (RetrieverInvoke query) ;; lift (retriever_invoke w query).

Definition get_relevant_documents (w : world) (query : pystr)
  : M (list document) :=
  emit (RetrieverGetRelevantDocuments query) ;;
  lift (retriever_get_relevant_documents w query).

(** How one round of a [for] body ends: it falls through or executes
    [continue], executes [break], or executes [return r]. *)
Inductive ctrl (R : Type) :=
| Continue
| Break
| Return (r : R).
Arguments Continue {R}.
Arguments Break {R}.
Arguments Return {R} r.

(** [for x in xs: body x]; [Some r] when the body returned [r] from the
    enclosing function, [None] when the loop ended or was broken. *)
Fixpoint for_each {A R} (xs : list A) (body : A -> M (ctrl R)) : M (option R) :=
  match xs with
  | [] => ret None
  | x :: xs' =>
      c <- body x ;;
      match c with
      | Continue => for_each xs' body
      | Break => ret None
      | Return r => ret (Some r)
      end
  end.

(** [range(n)] *)
Definition range (n : Z) : list Z := map Z.of_nat (seq 0 (Z.to_nat n)).

(** Truthiness of the optional arguments: [x or default]. *)
Definition str_or (x : option pystr) (default : pystr) : pystr :=
  match x with
  | Some s => if truthy s then s else default
  | None => default
  end.

Definition int_or (x : option Z) (default : Z) : Z :=
  match x with
  | Some n => if n =? 0 then default else n
  | None => default
  end.

Definition float_or (x : option float) (default : float) : float :=
  match x with
  | Some f => if PrimFloat.eqb f 0%float then default else f
  | None => default
  end.

(** ** src/groq_client.py *)

Record GroqClient := {
  api_key : pystr;
  base_url : pystr;
  headers : list (pystr * pystr);
  models : list pystr
}.

(** [GroqClient.__init__] *)
Definition GroqClient_init (w : world) (api_key : option pystr) : GroqClient :=
  let api_key := str_or api_key (GROQ_API_KEY w) in
  {| api_key := api_key;
     base_url := py "https://api.groq.com/openai/v1/chat/completions";
     headers := [(py "Authorization", py "Bearer " ++ api_key);
                 (py "Content-Type", py "application/json")];
     models := config.DEFAULT_LLM_MODEL :: config.FALLBACK_MODELS |}.

(** The module-level [groq_client = GroqClient()]. *)
Definition groq_client (w : world) : GroqClient := GroqClient_init w None.

Definition system_message : pystr :=
  py "You are a knowledgeable Harry Potter expert and helpful assistant. "
  ++ py "Provide detailed, accurate answers based on the given context. "
  ++ py "Reference specific books, characters, or events when possible. "
  ++ py "Maintain a warm, knowledgeable tone while being precise and informative.".

Definition ALL_UNAVAILABLE : pystr :=
  py "🚫 All language models are currently unavailable. Please try again later.".

Definition chat_request (self : GroqClient) (messages : list message)
    (max_tokens : Z) (temperature : float) (current_model : pystr) : request :=
  let payload := {| model := current_model;
                    messages := messages;
                    max_tokens := max_tokens;
                    temperature := temperature;
                    top_p := config.TOP_P |} in
  {| rq_url := base_url self;
     rq_headers := headers self;
     rq_json := payload;
     rq_timeout := config.REQUEST_TIMEOUT |}.

(** The body of [for retry in range(config.MAX_RETRIES)]: one request
    inside its [try], with the two [except] clauses. *)
Definition chat_attempt (w : world) (self : GroqClient) (messages : list message)
    (max_tokens : Z) (temperature : float) (current_model : pystr) (retry : Z)
  : M (ctrl pystr) :=
  try_except
    (response <- post w (chat_request self messages max_tokens temperature current_model) ;;
     if status_code response =? 200 then
       result <- lift (json_content response) ;;
       ret (Return result)
     else if status_code response =? 429 then
       let wait_time := 2 ^ retry in
       sleep wait_time ;;
       if retry =? config.MAX_RETRIES - 1 then ret Break else ret Continue
     else
       if retry =? config.MAX_RETRIES - 1 then ret Break else ret Continue)
    (fun e =>
       match exn_class_of e with
       | Timeout =>
           if retry =? config.MAX_RETRIES - 1 then ret Break
           else (sleep 1 ;; ret Continue)
       | _ =>
           if retry =? config.MAX_RETRIES - 1 then ret Break
           else (sleep 1 ;; ret Continue)
       end).

(** The body of [for attempt, current_model in enumerate(models_to_try)];
    [attempt] is read by console messages only. *)
Definition chat_model (w : world) (self : GroqClient) (messages : list message)
    (max_tokens : Z) (temperature : float) (current_model : pystr)
  : M (ctrl pystr) :=
  r <- for_each (range config.MAX_RETRIES)
         (chat_attempt w self messages max_tokens temperature current_model) ;;
  match r with
  | Some result => ret (Return result)
  | None => ret Continue
  end.

Definition chat_models (w : world) (self : GroqClient) (messages : list message)
    (max_tokens : Z) (temperature : float) (models_to_try : list pystr)
  : M (option pystr) :=
  for_each models_to_try (chat_model w self messages max_tokens temperature).

(** [[model] if model else self.models] *)
Definition models_to_try (self : GroqClient) (model : option pystr) : list pystr :=
  match model with
  | Some model => if truthy model then [model] else models self
  | None => models self
  end.

Definition chat_messages (prompt : pystr) : list message :=
  [ {| role := py "system"; content := system_message |};
    {| role := py "user"; content := prompt |} ].

(** [GroqClient.chat]; the call is logged on entry. *)
Definition chat (w : world) (self : GroqClient) (prompt : pystr)
    (model : option pystr) (max_tokens : option Z) (temperature : option float)
  : M pystr :=
  emit (ChatCall prompt) ;;
  let models_to_try := models_to_try self model in
  let max_tokens := int_or max_tokens config.MAX_TOKENS in
  let temperature := float_or temperature config.TEMPERATURE in
  let messages := chat_messages prompt in
  r <- chat_models w self messages max_tokens temperature models_to_try ;;
  match r with
  | Some result => ret result
  | None => ret ALL_UNAVAILABLE
  end.

(** ** src/rag_pipeline.py *)

(** The dictionary returned by [analyze_query]. *)
Record analysis := Analysis {
  type : pystr;
  k_docs : Z;
  complexity : Z
}.

(** The pipeline object.  Its embedding model, vector store and
    retriever handles live in the [world]; [initialize] sets
    [is_initialized] once the retriever answers. *)
Record HarryPotterRAG := {
  chroma_db_path : pystr;
  is_initialized : bool
}.

(** [xs[:k]] *)
Definition slice_to {A} (k : Z) (xs : list A) : list A :=
  if 0 <=? k then take (Z.to_nat k) xs
  else take (length xs - Z.to_nat (- k)) xs.

(** [d.get(key, default)] on a dictionary literal. *)
Fixpoint dict_get (d : list (pystr * pystr)) (key default : pystr) : pystr :=
  match d with
  | [] => default
  | (k, v) :: d' => if str_eqb k key then v else dict_get d' key default
  end.

Definition PLEASE_ASK : pystr :=
  py "🪄 Please cast a question spell by typing your query!".

Definition NOT_INITIALIZED : pystr :=
  py "🚨 RAG system not initialized. Please check the setup.".

Definition NO_INFORMATION : pystr :=
  py "🔍 I couldn't find relevant information in the Harry Potter books for your query. "
  ++ py "Try rephrasing your question or asking about specific characters, events, or magical elements.".

Definition error_words : list pystr :=
  [py "sorry"; py "error"; py "failed"; py "unavailable"].

Section Pipeline.
Context `{PyRuntime}.

(** [HarryPotterRAG.analyze_query] *)
Definition analyze_query (query : pystr) : analysis :=
  let query_lower := str_lower query in
  let '(query_type, k_docs) :=
    if any_in [py "who is"; py "tell me about"; py "describe"; py "character"] query_lower
    then (py "character_analysis", 4)
    else if any_in [py "summarize"; py "summary"; py "what happens"; py "events"; py "plot"] query_lower
    then (py "plot_summary", 6)
    else if any_in [py "how"; py "why"; py "what"; py "where"; py "when"; py "trivia"] query_lower
    then (py "detail_query", 3)
    else if any_in [py "compare"; py "difference"; py "vs"; py "versus"] query_lower
    then (py "comparison", 5)
    else (py "general", 5) in
  {| type := query_type;
     k_docs := k_docs;
     complexity := Z.of_nat (length (split query)) |}.

(** One round of [for doc in context_docs[:max_docs]], on the pair
    [(context_parts, seen_content)]. *)
Definition select_doc (acc : list pystr * gset Z) (doc : document)
  : list pystr * gset Z :=
  let '(context_parts, seen_content) := acc in
  let content := strip (page_content doc) in
  let content_hash := str_hash (take 100 content) in
  if bool_decide (content_hash ∉ seen_content)
     && bool_decide (50 < length content)%nat
  then (context_parts ++ [content], seen_content ∪ {[ content_hash ]})
  else (context_parts, seen_content).

(** [HarryPotterRAG.retrieve_context] *)
Definition retrieve_context (w : world) (self : HarryPotterRAG)
    (query : pystr) (analysis : option analysis) : M (list pystr) :=
  if negb (is_initialized self) then
    raise (Exn RuntimeError (py "RAG system not initialized. Call initialize() first."))
  else
    let analysis :=
      match analysis with
      | Some a => a
      | None => analyze_query query
      end in
    context_docs <-
      try_except (invoke w query)
        (fun e =>
           match exn_class_of e with
           | AttributeError => get_relevant_documents w query
           | _ => raise e
           end) ;;
    if negb (truthy context_docs) then ret []
    else
      let max_docs := k_docs analysis in
      let '(context_parts, _) :=
        foldl select_doc ([], ∅) (slice_to max_docs context_docs) in
      ret context_parts.

Definition type_instructions : list (pystr * pystr) :=
  [ (py "character_analysis",
     py "Focus on character development, personality traits, relationships, and key moments. Reference specific books when possible.");
    (py "plot_summary",
     py "Organize information chronologically and provide a comprehensive overview of events. Include key details and outcomes.");
    (py "detail_query",
     py "Be specific and precise with facts. Provide exact details and reference the source material.");
    (py "comparison",
     py "Clearly contrast the different elements being compared. Use structured comparisons and specific examples.");
    (py "general",
     py "Provide a well-rounded answer that covers all relevant aspects of the topic.") ].

(** [HarryPotterRAG.create_enhanced_prompt] *)
Definition create_enhanced_prompt (query : pystr) (context_parts : list pystr)
    (analysis : analysis) : pystr :=
  let context := join (nl ++ nl ++ py "---" ++ nl ++ nl) context_parts in
  let base_instructions :=
    py "You are an expert on the Harry Potter series with deep knowledge of all seven books. Use the provided context to answer the user's question comprehensively and accurately." in
  let specific_instruction :=
    dict_get type_instructions (type analysis)
      (dict_get type_instructions (py "general") []) in
  join nl
    [ base_instructions;
      [];
      py "**Context from Harry Potter books:**";
      context;
      [];
      py "**User Question:** " ++ query;
      [];
      py "**Instructions:**";
      py "- " ++ specific_instruction;
      py "- Reference specific books, characters, or events when relevant";
      py "- If you're not completely certain about something, acknowledge it";
      py "- Keep the magical tone but be informative and accurate";
      py "- Structure your response clearly";
      [];
      py "**Answer:**" ].

(** The two final formats of [generate_response]. *)
Definition enhanced_response (response : pystr) (num_sources : nat)
    (analysis : analysis) : pystr :=
  join nl
    [ py "🔮 **Magical Knowledge Retrieved:**";
      [];
      response;
      [];
      py "---";
      py "✨ *Answer compiled from " ++ str_of_nat num_sources
        ++ py " relevant passages across the Harry Potter books*  ";
      py "🏰 *Query type: " ++ title (replace_char 95 32 (type analysis)) ++ py "*" ].

Definition magical_response (response : pystr) : pystr :=
  py "🧙‍♂️ **Magical Response:** " ++ response.

Definition spell_malfunction (e : exn) : pystr :=
  let error_msg := py "An error occurred in the magical pipeline: " ++ exn_str e in
  py "🚨 **Spell Malfunction:** " ++ error_msg.

(** [HarryPotterRAG.generate_response], with the four callees of its
    chain as parameters: the method binds them late, and each of them
    may raise. *)
Section Chain.
Variable analyze_query : pystr -> M analysis.
Variable retrieve_context : pystr -> analysis -> M (list pystr).
Variable create_enhanced_prompt : pystr -> list pystr -> analysis -> M pystr.
Variable chat : pystr -> M pystr.

(** The [try] block. *)
Definition generate_response_try (self : HarryPotterRAG) (query : pystr)
  : M pystr :=
  if negb (truthy query) || negb (truthy (strip query)) then ret PLEASE_ASK
  else if negb (is_initialized self) then ret NOT_INITIALIZED
  else
    let query := strip query in
    analysis <- analyze_query query ;;
    context_parts <- retrieve_context query analysis ;;
    if negb (truthy context_parts) then ret NO_INFORMATION
    else
      prompt <- create_enhanced_prompt query context_parts analysis ;;
      response <- chat prompt ;;
      if truthy response && negb (any_in error_words (str_lower response)) then
        let num_sources := length context_parts in
        ret (enhanced_response response num_sources analysis)
      else ret (magical_response response).

Definition generate_response_with (self : HarryPotterRAG) (query : pystr)
  : M pystr :=
  try_except (generate_response_try self query)
    (fun e => ret (spell_malfunction e)).

End Chain.

(** [generate_response] as the program runs it: the pipeline's own
    methods and the global completion client. *)
Definition generate_response (w : world) (self : HarryPotterRAG) (query : pystr)
  : M pystr :=
  generate_response_with
    (fun query => ret (analyze_query query))
    (fun query analysis => retrieve_context w self query (Some analysis))
    (fun query context_parts analysis =>
       ret (create_enhanced_prompt query context_parts analysis))
    (fun prompt => chat w (groq_client w) prompt None None None)
    self query.

End Pipeline.

(** ** The functions around the chain *)

(** The settings of [src/config.py] read below. *)
Module config_names.

Definition EMBEDDING_MODEL : pystr := py "all-MiniLM-L6-v2".
Definition COLLECTION_NAME : pystr := py "langchain".

End config_names.

(** The values the program stores in its result dictionaries. *)
Inductive pyval :=
| VStr (s : pystr)
| VInt (n : Z)
| VBool (b : bool).

(** A dictionary literal, in the order of its keys. *)
Definition pydict := list (pystr * pyval).

(** [d[key]]; [None] stands for [KeyError]. *)
Fixpoint getitem (d : pydict) (key : pystr) : option pyval :=
  match d with
  | [] => None
  | (k, v) :: d' => if str_eqb k key then Some v else getitem d' key
  end.

(** [GroqClient.test_connection] *)
Definition test_connection (w : world) (self : GroqClient) : M pydict :=
  try_except
    (test_response <-
       chat w self
         (py "Hello, this is a test message. Please respond with 'Test successful!'")
         None (Some 50) None ;;
     ret [ (py "status", VStr (py "success"));
           (py "message", VStr (py "Connection successful"));
           (py "response", VStr test_response);
           (py "api_key_valid", VBool true) ])
    (fun e =>
       ret [ (py "status", VStr (py "error"));
             (py "message", VStr (py "Connection failed: " ++ exn_str e));
             (py "api_key_valid", VBool false) ]).

(** [GroqClient.get_available_models] *)
Definition get_available_models (self : GroqClient) : list pystr := models self.

(** [HarryPotterRAG.get_system_stats] *)
Definition get_system_stats (w : world) (self : HarryPotterRAG) : M pydict :=
  if negb (is_initialized self) then
    ret [ (py "status", VStr (py "not_initialized")) ]
  else
    try_except
      (test_docs <-
         try_except (invoke w (py "test"))
           (fun e =>
              match exn_class_of e with
              | AttributeError => get_relevant_documents w (py "test")
              | _ => raise e
              end) ;;
       ret [ (py "status", VStr (py "ready"));
             (py "database_path", VStr (chroma_db_path self));
             (py "embedding_model", VStr config_names.EMBEDDING_MODEL);
             (py "collection_name", VStr config_names.COLLECTION_NAME);
             (py "test_documents_found", VInt (Z.of_nat (length test_docs)));
             (py "retrieval_k", VInt config.RETRIEVAL_K);
             (py "is_functional", VBool (0 <? Z.of_nat (length test_docs))) ])
      (fun e =>
         ret [ (py "status", VStr (py "error"));
               (py "error", VStr (exn_str e)) ]).

(** What [initialize] asks of its surroundings besides the retriever:
    the file system, the [sentence_transformers] import, the three
    constructors, the collection count and [hasattr(retriever,
    'invoke')].  The retriever of [host_world] is the one that
    [as_retriever] builds. *)
Record host := Host {
  host_world : world;
  os_path_exists : pystr -> bool;
  sentence_transformers_installed : bool;
  HuggingFaceEmbeddings : result unit;
  Chroma : result unit;
  as_retriever : result unit;
  collection_count : result Z;
  retriever_has_invoke : bool
}.

Definition test_queries : list pystr :=
  [py "magic"; py "wizard"; py "Hogwarts"; py "book"].

(** [for query in test_queries], on the loop variable [test_docs]: a
    query that raises is skipped, a query with documents ends the
    loop. *)
Fixpoint try_test_queries (h : host) (queries : list pystr)
    (test_docs : list document) : M (list document) :=
  match queries with
  | [] => ret test_docs
  | query :: queries' =>
      r <- try_except
             (docs <- (if retriever_has_invoke h
                       then invoke (host_world h) query
                       else get_relevant_documents (host_world h) query) ;;
              ret (Some docs))
             (fun _ => ret None) ;;
      match r with
      | Some docs =>
          if truthy docs then ret docs
          else try_test_queries h queries' docs
      | None => try_test_queries h queries' test_docs
      end
  end.

(** [HarryPotterRAG.initialize]: the returned flag, and the object with
    [is_initialized] as the call leaves it. *)
Definition initialize (h : host) (self : HarryPotterRAG)
  : M (bool * HarryPotterRAG) :=
  try_except
    (if negb (os_path_exists h (chroma_db_path self)) then
       raise (Exn OtherException
                (py "Chroma database not found at: " ++ chroma_db_path self))
     else
       (if sentence_transformers_installed h then ret tt
        else raise (Exn OtherException
                      (py "Could not import sentence_transformers python package. Please install it with `pip install sentence-transformers`."))) ;;
       lift (HuggingFaceEmbeddings h) ;;
       lift (Chroma h) ;;
       lift (as_retriever h) ;;
       try_except
         (count <- lift (collection_count h) ;;
          if count =? 0 then
            raise (Exn OtherException
                     (py "Collection '" ++ config_names.COLLECTION_NAME
                      ++ py "' is empty - no documents found in database"))
          else ret tt)
         (fun _ => ret tt) ;;
       test_docs <-
         try_except (invoke (host_world h) (py "Harry Potter"))
           (fun e =>
              match exn_class_of e with
              | AttributeError =>
                  get_relevant_documents (host_world h) (py "Harry Potter")
              | _ => raise e
              end) ;;
       test_docs <-
         (if negb (truthy test_docs) then
            test_docs <- try_test_queries h test_queries test_docs ;;
            if negb (truthy test_docs) then
              raise (Exn OtherException
                       (py "No documents found with any test query - database might be empty or misconfigured"))
            else ret test_docs
          else ret test_docs) ;;
       ret (true, {| chroma_db_path := chroma_db_path self;
                     is_initialized := true |}))
    (fun _ => ret (false, self)).

(** [initialize_system] of [src/main.py], on the pipeline object. *)
Definition initialize_system (h : host) (self : HarryPotterRAG)
  : M (bool * HarryPotterRAG) :=
  r <- initialize h self ;;
  let '(ok, self) := r in
  if negb ok then ret (false, self)
  else
    stats <- get_system_stats (host_world h) self ;;
    match getitem stats (py "status") with
    | Some status =>
        match status with
        | VStr name =>
            if str_eqb name (py "ready") then ret (true, self)
            else ret (false, self)
        | _ => ret (false, self)
        end
    | None => raise (Exn OtherException (py "'status'"))
    end.

(** [enhanced_rag_pipeline], the handler that [create_interface] of
    [src/ui_components.py] binds to the submit button. *)
Definition ASK_ABOVE : pystr :=
  py "🪄 Please cast a question spell by typing your query above!".

Definition enhanced_rag_pipeline (rag_pipeline_func : pystr -> M pystr)
    (query : pystr) : M pystr :=
  if negb (truthy (strip query)) then ret ASK_ABOVE
  else
    try_except
      (response <- rag_pipeline_func query ;;
       ret response)
      (fun e =>
         ret (py "🚨 **Magical Error:** The spell backfired! " ++ exn_str e)).

(** ** Concrete instances *)

(** A runtime for ASCII text: [str.lower] on ASCII, and a hash without
    collisions (the code points, each below [2^21], read as digits in
    base [2^21]). *)
Definition radix_hash (s : pystr) : Z :=
  foldl (fun h c => h * 2097152 + Z.of_N c + 1) 0 s.

Definition ascii_runtime : PyRuntime :=
  {| str_lower := ascii_lower; str_hash := radix_hash |}.

(** A runtime whose hash sends every string to the same value. *)
Definition constant_hash_runtime : PyRuntime :=
  {| str_lower := ascii_lower; str_hash := fun _ => 0 |}.

Definition the_rag : HarryPotterRAG :=
  {| chroma_db_path := py "data/chroma_db"; is_initialized := true |}.

Definition fresh_rag : HarryPotterRAG :=
  {| chroma_db_path := py "data/chroma_db"; is_initialized := false |}.

Definition passage_fifty : pystr :=
  py "Harry Potter lived at number four, Privet Drive ..".

Definition passage_hagrid : pystr :=
  py "Hagrid is the Keeper of Keys and Grounds at Hogwarts School of Witchcraft and Wizardry.".

Definition passage_snape : pystr :=
  py "Severus Snape is the Potions master at Hogwarts and the head of Slytherin house.".

Definition http_ok (text : pystr) : result response :=
  Ok {| status_code := 200; json_content := Ok text |}.

Definition http_status (code : Z) : result response :=
  Ok {| status_code := code;
        json_content := Raise (Exn OtherException (py "'choices'")) |}.

(** A world given by the retrieved documents and the replies of the
    completion API in the order of the calls ([last] once they run out). *)
Definition scripted_world (docs : list document)
    (replies : list (result response)) (last : result response) : world :=
  {| GROQ_API_KEY := py "gsk_test";
     retriever_invoke := fun _ => Ok docs;
     retriever_get_relevant_documents := fun _ => Ok docs;
     requests_post := fun n _ => nth n replies last |}.

(** A world whose vector store fails on every query. *)
Definition locked_world : world :=
  {| GROQ_API_KEY := py "gsk_test";
     retriever_invoke := fun _ => Raise (Exn OtherException (py "database is locked"));
     retriever_get_relevant_documents :=
       fun _ => Raise (Exn OtherException (py "database is locked"));
     requests_post := fun _ _ => http_status 500 |}.

(** A world with an older retriever: no [invoke] method, and
    [get_relevant_documents] finds nothing. *)
Definition legacy_world : world :=
  {| GROQ_API_KEY := py "gsk_test";
     retriever_invoke :=
       fun _ => Raise (Exn AttributeError
                         (py "'VectorStoreRetriever' object has no attribute 'invoke'"));
     retriever_get_relevant_documents := fun _ => Ok [];
     requests_post := fun _ _ => http_status 500 |}.

Definition hagrid_query : pystr := py "Who is Hagrid?".

(** Four ranked documents: a passage, a passage of exactly 50
    characters, the first passage again inside whitespace, and another
    passage. *)
Definition hagrid_docs : list document :=
  [ Document passage_hagrid;
    Document passage_fifty;
    Document (py "  " ++ passage_hagrid ++ nl);
    Document passage_snape ].

(** The API answers 429 three times, then 200. *)
Definition rate_limited_world : world :=
  scripted_world hagrid_docs
    [http_status 429; http_status 429; http_status 429;
     http_ok (py "Hagrid is the gamekeeper.")]
    (http_status 500).

(** The API answers 200 at once, with a text that mentions a failure. *)
Definition failed_exam_world : world :=
  scripted_world hagrid_docs
    [http_ok (py "Hagrid failed to finish his third year at Hogwarts.")]
    (http_status 500).

(** ** Vocabulary of the statements *)

(** The text of a reply that [chat] returns: status 200 with a body that
    has the content path. *)
Definition success_text (reply : result response) : option pystr :=
  match reply with
  | Ok r =>
      if status_code r =? 200 then
        match json_content r with
        | Ok text => Some text
        | Raise _ => None
        end
      else None
  | Raise _ => None
  end.

(** An event that is not a successful request. *)
Definition unsuccessful (e : event) : Prop :=
  match e with
  | Post _ reply => success_text reply = None
  | _ => True
  end.

(** A reply with a status other than 200, or no reply at all. *)
Definition not_200 (reply : result response) : Prop :=
  match reply with
  | Ok r => status_code r <> 200
  | Raise _ => True
  end.

(** An event of the client's loop for one of [models]: a request built
    from the call's parameters and answered by the world, or a pause. *)
Definition loop_event (w : world) (self : GroqClient) (messages : list message)
    (max_tokens : Z) (temperature : float) (models : list pystr)
    (e : event) : Prop :=
  match e with
  | Post rq reply =>
      (exists m, m ∈ models /\ rq = chat_request self messages max_tokens temperature m)
      /\ (exists n, reply = requests_post w n rq)
  | Sleep _ => True
  | _ => False
  end.

(** The two states of the client's loop, as seen on the trace since
    [tr0]: nothing has succeeded yet, or the last event is the request
    that succeeded with [text]. *)
Definition failed_so_far (P : event -> Prop) (tr0 tr : trace) : Prop :=
  exists evs, tr = tr0 ++ evs /\ Forall unsuccessful evs /\ Forall P evs.

Definition succeeded_with (P : event -> Prop) (tr0 : trace) (text : pystr)
    (tr : trace) : Prop :=
  exists evs rq reply,
    tr = tr0 ++ evs ++ [Post rq reply] /\ Forall unsuccessful evs /\
    Forall P (evs ++ [Post rq reply]) /\ success_text reply = Some text.

(** The end of [chat] after its loop: the text of the request that
    succeeded, or the fixed sentence. *)
Definition chat_outcome (r : result (option pystr) * trace) : result pystr * trace :=
  match r with
  | (Ok (Some result), tr) => (Ok result, tr)
  | (Ok None, tr) => (Ok ALL_UNAVAILABLE, tr)
  | (Raise e, tr) => (Raise e, tr)
  end.

(** How a failed attempt leaves the retry loop. *)
Definition last_retry (retry : Z) : ctrl pystr :=
  if retry =? config.MAX_RETRIES - 1 then Break else Continue.

(** What the retriever hands to [retrieve_context]: [invoke], or
    [get_relevant_documents] when [invoke] raises [AttributeError]. *)
Definition retrieved (w : world) (query : pystr) : result (list document) :=
  match retriever_invoke w query with
  | Ok docs => Ok docs
  | Raise e =>
      match exn_class_of e with
      | AttributeError => retriever_get_relevant_documents w query
      | _ => Raise e
      end
  end.

Definition retriever_events (w : world) (query : pystr) : list event :=
  match retriever_invoke w query with
  | Ok _ => [RetrieverInvoke query]
  | Raise e =>
      match exn_class_of e with
      | AttributeError =>
          [RetrieverInvoke query; RetrieverGetRelevantDocuments query]
      | _ => [RetrieverInvoke query]
      end
  end.

(** The classifier as a rule table: keyword set, category, breadth, in
    priority order, and the default. *)
Definition classifier_rules : list (list pystr * (pystr * Z)) :=
  [ ([py "who is"; py "tell me about"; py "describe"; py "character"],
     (py "character_analysis", 4));
    ([py "summarize"; py "summary"; py "what happens"; py "events"; py "plot"],
     (py "plot_summary", 6));
    ([py "how"; py "why"; py "what"; py "where"; py "when"; py "trivia"],
     (py "detail_query", 3));
    ([py "compare"; py "difference"; py "vs"; py "versus"],
     (py "comparison", 5)) ].

Definition default_rule : pystr * Z := (py "general", 5).

Fixpoint first_match (rules : list (list pystr * (pystr * Z)))
    (query_lower : pystr) : pystr * Z :=
  match rules with
  | [] => default_rule
  | (keywords, outcome) :: rules' =>
      if any_in keywords query_lower then outcome
      else first_match rules' query_lower
  end.

(** [s] contains [sub] as a substring. *)
Definition contains (s sub : pystr) : Prop :=
  exists pre post, s = pre ++ sub ++ post.

Definition keywords_of (rules : list (list pystr * (pystr * Z))) : list pystr :=
  flat_map fst rules.

(** The keywords of the three categories tested before the comparison
    words. *)
Definition earlier_keywords : list pystr := keywords_of (take 3 classifier_rules).

Section Filters.
Context `{PyRuntime}.

Definition prefix_hash (content : pystr) : Z := str_hash (take 100 content).

(** Filter (b): going down the list, drop a passage whose prefix hash
    has been seen on an earlier passage. *)
Fixpoint drop_seen (seen : gset Z) (passages : list pystr) : list pystr :=
  match passages with
  | [] => []
  | p :: ps =>
      if decide (prefix_hash p ∈ seen) then drop_seen seen ps
      else p :: drop_seen ({[ prefix_hash p ]} ∪ seen) ps
  end.

(** The filters as the code applies them to the retrieved documents:
    (a) keeps what is longer than 50. *)
Definition filtered_context (max_docs : Z) (docs : list document) : list pystr :=
  drop_seen ∅
    (filter (fun p => 50 < length p)%nat
       ((fun doc => strip (page_content doc)) <$> slice_to max_docs docs)).

(** The filters in the words of the specification: (a) drops what is
    shorter than 50, and the survivors are capped. *)
Definition filtered_context_spec (max_docs : Z) (docs : list document)
  : list pystr :=
  slice_to max_docs
    (drop_seen ∅
       (filter (fun p => ~ (length p < 50)%nat)
          ((fun doc => strip (page_content doc)) <$> docs))).

End Filters.

(** An event of the client's retry loop: a request or a pause. *)
Definition is_loop_event (e : event) : bool :=
  match e with Post _ _ | Sleep _ => true | _ => false end.

(** [h] with another answer of [_collection.count()]. *)
Definition with_collection_count (h : host) (count : result Z) : host :=
  {| host_world := host_world h;
     os_path_exists := os_path_exists h;
     sentence_transformers_installed := sentence_transformers_installed h;
     HuggingFaceEmbeddings := HuggingFaceEmbeddings h;
     Chroma := Chroma h;
     as_retriever := as_retriever h;
     collection_count := count;
     retriever_has_invoke := retriever_has_invoke h |}.

Definition is_ok {A} (r : result A) : bool :=
  match r with Ok _ => true | Raise _ => false end.

(** The steps of [initialize] before the first retrieval all succeed. *)
Definition store_opens (h : host) (self : HarryPotterRAG) : bool :=
  os_path_exists h (chroma_db_path self)
  && sentence_transformers_installed h
  && is_ok (HuggingFaceEmbeddings h)
  && is_ok (Chroma h)
  && is_ok (as_retriever h).

(** The pipeline object after a successful [initialize]. *)
Definition initialized (self : HarryPotterRAG) : HarryPotterRAG :=
  {| chroma_db_path := chroma_db_path self; is_initialized := true |}.

(** The retriever answers [query] with [docs], through either method. *)
Definition answers (w : world) (query : pystr) (docs : list document) : Prop :=
  retriever_invoke w query = Ok docs
  \/ retriever_get_relevant_documents w query = Ok docs.

(** The store answers, the API answers 503 to every request. *)
Definition offline_world : world :=
  scripted_world hagrid_docs [] (http_status 503).

(** A host on which every step of [initialize] succeeds but the
    collection count, which is 0. *)
Definition counting_zero_host : host :=
  {| host_world := scripted_world hagrid_docs [] (http_status 500);
     os_path_exists := fun _ => true;
     sentence_transformers_installed := true;
     HuggingFaceEmbeddings := Ok tt;
     Chroma := Ok tt;
     as_retriever := Ok tt;
     collection_count := Ok 0;
     retriever_has_invoke := true |}.

(** A host without the database directory. *)
Definition missing_database_host : host :=
  {| host_world := scripted_world hagrid_docs [] (http_status 500);
     os_path_exists := fun _ => false;
     sentence_transformers_installed := true;
     HuggingFaceEmbeddings := Ok tt;
     Chroma := Ok tt;
     as_retriever := Ok tt;
     collection_count := Ok 12;
     retriever_has_invoke := true |}.

(** A host whose store is empty: every query finds nothing. *)
Definition empty_store_host : host :=
  {| host_world := scripted_world [] [] (http_status 500);
     os_path_exists := fun _ => true;
     sentence_transformers_installed := true;
     HuggingFaceEmbeddings := Ok tt;
     Chroma := Ok tt;
     as_retriever := Ok tt;
     collection_count := Ok 0;
     retriever_has_invoke := true |}.

(** The models of the requests of a trace, in the order of the calls. *)
Fixpoint post_models (tr : list event) : list pystr :=
  match tr with
  | [] => []
  | Post rq _ :: tr' => model (rq_json rq) :: post_models tr'
  | _ :: tr' => post_models tr'
  end.

(** The seconds slept over a trace. *)
Fixpoint sleep_total (tr : list event) : Z :=
  match tr with
  | [] => 0
  | Sleep seconds :: tr' => seconds + sleep_total tr'
  | _ :: tr' => sleep_total tr'
  end.

(** The requests of a call that never succeeds: every model of the
    attempt order, [config.MAX_RETRIES] times each. *)
Fixpoint attempt_schedule (models : list pystr) : list pystr :=
  match models with
  | [] => []
  | m :: models' => replicate (Z.to_nat config.MAX_RETRIES) m ++ attempt_schedule models'
  end.

(** * Properties *)

(** ** Traces and loops *)

Lemma count_posts_app (tr1 tr2 : trace) :
  count_posts (tr1 ++ tr2) = (count_posts tr1 + count_posts tr2)%nat.
Proof. induction tr1 as [|e tr1 IH]; cbn; [done|]. rewrite IH. lia. Qed.

Lemma count_posts_post (tr : trace) rq reply :
  count_posts (tr ++ [Post rq reply]) = S (count_posts tr).
Proof. rewrite count_posts_app. cbn. lia. Qed.

Lemma count_posts_sleep (tr : trace) seconds :
  count_posts (tr ++ [Sleep seconds]) = count_posts tr.
Proof. rewrite count_posts_app. cbn. lia. Qed.

(** The loop rule: an invariant [I] kept by every round that does not
    return, and a postcondition [Q] established by a round that does. *)
Lemma for_each_rule {A R} (I : trace -> Prop) (Q : R -> trace -> Prop)
    (xs : list A) (body : A -> M (ctrl R)) :
  (forall x tr, x ∈ xs -> I tr ->
     exists c tr', body x tr = (Ok c, tr') /\
       match c with Return r => Q r tr' | _ => I tr' end) ->
  forall tr, I tr ->
    exists o tr', for_each xs body tr = (Ok o, tr') /\
      match o with Some r => Q r tr' | None => I tr' end.
Proof.
  induction xs as [|x xs IH]; intros Hbody tr HI.
  - exists None, tr. by split.
  - destruct (Hbody x tr) as (c & tr' & Hrun & Hc); [by left | done |].
    cbn [for_each]. unfold bind at 1. rewrite Hrun.
    destruct c as [| |r].
    + apply IH; [|done]. intros y tr0 Hy. apply Hbody. by right.
    + exists None, tr'. by split.
    + exists (Some r), tr'. by split.
Qed.

(** ** The completion client *)

Section ClientFacts.
Variables (w : world) (self : GroqClient) (messages : list message).
Variables (max_tokens : Z) (temperature : float).

Abbreviation request_for := (chat_request self messages max_tokens temperature).
Abbreviation attempt := (chat_attempt w self messages max_tokens temperature).

Lemma chat_attempt_success m retry tr text :
  success_text (requests_post w (count_posts tr) (request_for m)) = Some text ->
  attempt m retry tr
  = (Ok (Return text),
     tr ++ [Post (request_for m) (requests_post w (count_posts tr) (request_for m))]).
Proof.
  unfold chat_attempt, try_except, bind, post, lift, ret, success_text.
  destruct (requests_post _ _ _) as [[code [text'|e]]|e]; cbn; try done.
  - destruct (code =? 200); [|done]. by intros [= ->].
  - by destruct (code =? 200).
Qed.

Lemma chat_attempt_429 m retry tr r :
  requests_post w (count_posts tr) (request_for m) = Ok r ->
  status_code r = 429 ->
  attempt m retry tr
  = (Ok (last_retry retry),
     tr ++ [Post (request_for m) (Ok r); Sleep (2 ^ retry)]).
Proof.
  intros Hr Hcode.
  unfold chat_attempt, try_except, bind, post, lift, ret, sleep, emit, last_retry.
  rewrite Hr, Hcode. cbn. rewrite <- app_assoc. cbn.
  by destruct (retry =? _).
Qed.

Lemma chat_attempt_failure m retry tr :
  success_text (requests_post w (count_posts tr) (request_for m)) = None ->
  exists pauses,
    attempt m retry tr
    = (Ok (last_retry retry),
       tr ++ Post (request_for m) (requests_post w (count_posts tr) (request_for m))
          :: pauses)
    /\ Forall (fun e => exists seconds, e = Sleep seconds) pauses.
Proof.
  unfold chat_attempt, try_except, bind, post, lift, ret, sleep, emit,
    last_retry, success_text.
  destruct (requests_post _ _ _) as [[code [text|e]]|e]; cbn.
  - destruct (code =? 200); [done|]. intros _.
    destruct (code =? 429); cbn.
    + exists [Sleep (2 ^ retry)]. rewrite <- app_assoc. cbn.
      split; [by destruct (retry =? _)|]. repeat constructor. by eexists.
    + exists []. split; [by destruct (retry =? _)|constructor].
  - intros _. destruct (code =? 200); cbn.
    + destruct (exn_class_of e), (retry =? _); cbn;
        first [ exists []; split; [done|constructor]
              | exists [Sleep 1]; rewrite <- app_assoc; cbn;
                split; [done|]; repeat constructor; by eexists ].
    + destruct (code =? 429); cbn.
      * exists [Sleep (2 ^ retry)]. rewrite <- app_assoc. cbn.
        split; [by destruct (retry =? _)|]. repeat constructor. by eexists.
      * exists []. split; [by destruct (retry =? _)|constructor].
  - intros _.
    destruct (exn_class_of e), (retry =? _); cbn;
      first [ exists []; split; [done|constructor]
            | exists [Sleep 1]; rewrite <- app_assoc; cbn;
              split; [done|]; repeat constructor; by eexists ].
Qed.

Section Invariant.
Variable all : list pystr.
Variable tr0 : trace.

Abbreviation P := (loop_event w self messages max_tokens temperature all).

Lemma chat_attempt_step m retry tr :
  m ∈ all -> failed_so_far P tr0 tr ->
  exists c tr', attempt m retry tr = (Ok c, tr') /\
    match c with
    | Return text => succeeded_with P tr0 text tr'
    | _ => failed_so_far P tr0 tr'
    end.
Proof.
  intros Hm (evs & -> & Hfail & HP).
  set (reply := requests_post w (count_posts (tr0 ++ evs)) (request_for m)).
  assert (HPpost : P (Post (request_for m) reply)).
  { split; [by exists m | by eexists]. }
  destruct (success_text reply) as [text|] eqn:Hreply.
  - exists (Return text), ((tr0 ++ evs) ++ [Post (request_for m) reply]).
    split; [by apply chat_attempt_success|].
    exists evs, (request_for m), reply. rewrite <- app_assoc.
    repeat split; [done| |done]. apply Forall_app. split; [done|]. by constructor.
  - destruct (chat_attempt_failure m retry (tr0 ++ evs) Hreply) as (pauses & Hrun & Hp).
    exists (last_retry retry),
      (tr0 ++ evs ++ Post (request_for m) reply :: pauses).
    split; [by rewrite Hrun, <- app_assoc|].
    assert (failed_so_far P tr0 (tr0 ++ evs ++ Post (request_for m) reply :: pauses)).
    { eexists. split; [done|]. split.
      - apply Forall_app. split; [done|]. constructor; [done|].
        eapply Forall_impl; [exact Hp|]. by intros ? [? ->].
      - apply Forall_app. split; [done|]. constructor; [done|].
        eapply Forall_impl; [exact Hp|]. by intros ? [? ->]. }
    unfold last_retry. by destruct (retry =? _).
Qed.

Lemma chat_model_step m tr :
  m ∈ all -> failed_so_far P tr0 tr ->
  exists c tr', chat_model w self messages max_tokens temperature m tr = (Ok c, tr') /\
    match c with
    | Return text => succeeded_with P tr0 text tr'
    | _ => failed_so_far P tr0 tr'
    end.
Proof.
  intros Hm Hfail. unfold chat_model.
  destruct (for_each_rule (failed_so_far P tr0) (succeeded_with P tr0)
              (range config.MAX_RETRIES) (attempt m)) with (tr := tr)
    as (o & tr' & Hrun & Ho); [|done|].
  { intros retry tr1 _. by apply chat_attempt_step. }
  unfold bind. rewrite Hrun.
  destruct o as [text|]; [by exists (Return text), tr' | by exists Continue, tr'].
Qed.

Lemma chat_models_run ms tr :
  ms ⊆ all -> failed_so_far P tr0 tr ->
  exists o tr', chat_models w self messages max_tokens temperature ms tr = (Ok o, tr') /\
    match o with
    | Some text => succeeded_with P tr0 text tr'
    | None => failed_so_far P tr0 tr'
    end.
Proof.
  intros Hms Hfail. unfold chat_models.
  apply (for_each_rule (failed_so_far P tr0) (succeeded_with P tr0)); [|done].
  intros m tr1 Hm. apply chat_model_step. by apply Hms.
Qed.

End Invariant.

(** Exact traces: a model whose three attempts all fail. *)
Lemma chat_model_exhausted m tr :
  (forall n rq, not_200 (requests_post w n rq)) ->
  exists evs,
    chat_model w self messages max_tokens temperature m tr = (Ok Continue, tr ++ evs)
    /\ count_posts evs = 3%nat.
Proof.
  intros Hno.
  assert (Hfail : forall n rq, success_text (requests_post w n rq) = None).
  { intros n rq. specialize (Hno n rq). unfold success_text.
    destruct (requests_post w n rq) as [[code body]|e]; [|done].
    cbn in *. by destruct (Z.eqb_spec code 200). }
  unfold chat_model. change (range config.MAX_RETRIES) with [0; 1; 2].
  cbn [for_each].
  destruct (chat_attempt_failure m 0 tr (Hfail _ _)) as (p0 & H0 & Hp0).
  set (tr1 := tr ++ _ :: p0) in H0.
  destruct (chat_attempt_failure m 1 tr1 (Hfail _ _)) as (p1 & H1 & Hp1).
  set (tr2 := tr1 ++ _ :: p1) in H1.
  destruct (chat_attempt_failure m 2 tr2 (Hfail _ _)) as (p2 & H2 & Hp2).
  unfold bind at 1 2. rewrite H0. cbn [last_retry]. 
  change (last_retry 0) with (@Continue pystr). cbn iota beta.
  unfold bind at 1. rewrite H1.
  change (last_retry 1) with (@Continue pystr). cbn iota beta.
  unfold bind at 1. rewrite H2.
  change (last_retry 2) with (@Break pystr). cbn.
  eexists. split.
  - subst tr2 tr1. rewrite <- !app_assoc. cbn. reflexivity.
  - assert (Hz : forall p, Forall (fun e => exists s, e = Sleep s) p -> forall tl,
               count_posts (p ++ tl) = count_posts tl).
    { induction 1 as [|e p [s ->] _ IH]; intros tl; cbn; [done|apply IH]. }
    cbn. rewrite Hz by done. cbn. rewrite Hz by done. cbn.
    rewrite <- (app_nil_r p2). by rewrite Hz.
Qed.

Lemma chat_models_exhausted ms tr :
  (forall n rq, not_200 (requests_post w n rq)) ->
  exists evs,
    chat_models w self messages max_tokens temperature ms tr = (Ok None, tr ++ evs)
    /\ count_posts evs = (3 * length ms)%nat.
Proof.
  intros Hno. revert tr. induction ms as [|m ms IH]; intros tr.
  - exists []. by rewrite app_nil_r.
  - destruct (chat_model_exhausted m tr Hno) as (evs1 & H1 & Hc1).
    destruct (IH (tr ++ evs1)) as (evs2 & H2 & Hc2).
    exists (evs1 ++ evs2). split.
    + unfold chat_models in *. cbn [for_each]. unfold bind at 1.
      rewrite H1. rewrite H2. by rewrite app_assoc.
    + rewrite count_posts_app, Hc1, Hc2. cbn [length]. lia.
Qed.

End ClientFacts.

(** [chat] ends in one of two ways, and never with an exception: the
    last event is a request that succeeded and its text is returned, or
    no request succeeded and the fixed sentence is returned. *)
Lemma chat_run w self prompt model max_tokens temperature tr :
  let P := loop_event w self (chat_messages prompt)
             (int_or max_tokens config.MAX_TOKENS)
             (float_or temperature config.TEMPERATURE)
             (models_to_try self model) in
  exists text tr',
    chat w self prompt model max_tokens temperature tr = (Ok text, tr') /\
    (succeeded_with P (tr ++ [ChatCall prompt]) text tr'
     \/ (text = ALL_UNAVAILABLE /\ failed_so_far P (tr ++ [ChatCall prompt]) tr')).
Proof.
  intros P.
  destruct (chat_models_run w self (chat_messages prompt)
              (int_or max_tokens config.MAX_TOKENS)
              (float_or temperature config.TEMPERATURE)
              (models_to_try self model) (tr ++ [ChatCall prompt])
              (models_to_try self model) (tr ++ [ChatCall prompt]))
    as (o & tr' & Hrun & Ho); [done| |].
  { exists []. by rewrite app_nil_r. }
  unfold chat, bind, emit. cbn zeta. rewrite Hrun.
  destruct o as [text|].
  - exists text, tr'. split; [done|by left].
  - exists ALL_UNAVAILABLE, tr'. split; [done|by right].
Qed.

(** C2.  When no request of the call is answered with HTTP 200 (other
    statuses, timeouts and transport errors alike), every model of the
    attempt order spends its three attempts, and [chat] returns the
    fixed unavailability sentence as a value: it does not raise. *)
Theorem chat_exhaustion_returns_sentinel w self prompt model max_tokens
    temperature tr :
  (forall n rq, not_200 (requests_post w n rq)) ->
  exists evs,
    chat w self prompt model max_tokens temperature tr
    = (Ok ALL_UNAVAILABLE, tr ++ ChatCall prompt :: evs)
    /\ count_posts evs
       = (Z.to_nat config.MAX_RETRIES * length (models_to_try self model))%nat.
Proof.
  intros Hno.
  destruct (chat_models_exhausted w self (chat_messages prompt)
              (int_or max_tokens config.MAX_TOKENS)
              (float_or temperature config.TEMPERATURE)
              (models_to_try self model) (tr ++ [ChatCall prompt]) Hno)
    as (evs & Hrun & Hcount).
  exists evs. split; [|exact Hcount].
  unfold chat, bind, emit. cbn zeta. rewrite Hrun.
  by rewrite <- app_assoc.
Qed.

Lemma chat_models_backoff w self messages max_tokens temperature m rest tr r0 r1 r2 :
  let rq := chat_request self messages max_tokens temperature m in
  let n := count_posts tr in
  requests_post w n rq = Ok r0 -> status_code r0 = 429 ->
  requests_post w (S n) rq = Ok r1 -> status_code r1 = 429 ->
  requests_post w (S (S n)) rq = Ok r2 -> status_code r2 = 429 ->
  chat_models w self messages max_tokens temperature (m :: rest) tr
  = chat_models w self messages max_tokens temperature rest
      (tr ++ [Post rq (Ok r0); Sleep 1;
              Post rq (Ok r1); Sleep 2;
              Post rq (Ok r2); Sleep 4]).
Proof.
  intros rq n H0 Hc0 H1 Hc1 H2 Hc2.
  unfold chat_models. cbn [for_each]. unfold bind at 1. unfold chat_model.
  change (range config.MAX_RETRIES) with [0; 1; 2]. cbn [for_each].
  unfold bind at 1 2.
  rewrite (chat_attempt_429 w self messages max_tokens temperature m 0 tr r0 H0 Hc0).
  change (last_retry 0) with (@Continue pystr). cbn iota beta.
  unfold bind at 1.
  rewrite (chat_attempt_429 w self messages max_tokens temperature m 1 _ r1)
    by (rewrite ?count_posts_app; cbn; rewrite ?Nat.add_0_r, ?Nat.add_1_r; done).
  change (last_retry 1) with (@Continue pystr). cbn iota beta.
  unfold bind at 1.
  rewrite (chat_attempt_429 w self messages max_tokens temperature m 2 _ r2)
    by (rewrite ?count_posts_app; cbn; rewrite ?Nat.add_0_r;
        replace (count_posts tr + 1 + 1)%nat with (S (S (count_posts tr))) by lia;
        done).
  change (last_retry 2) with (@Break pystr). cbn iota beta.
  unfold ret at 1. cbn iota beta.
  by rewrite <- !app_assoc.
Qed.

(** The models after a run of models that all gave up start where that
    run ended. *)
Lemma chat_models_app w self messages max_tokens temperature pre ms tr tr1 :
  chat_models w self messages max_tokens temperature pre tr = (Ok None, tr1) ->
  chat_models w self messages max_tokens temperature (pre ++ ms) tr
  = chat_models w self messages max_tokens temperature ms tr1.
Proof.
  revert tr. induction pre as [|m pre IH]; intros tr.
  - intros [= ->]. done.
  - unfold chat_models in *. cbn [for_each app]. intros Hrun.
    unfold bind at 1 in Hrun. unfold bind at 1.
    destruct (chat_model w self messages max_tokens temperature m tr)
      as [[[| |text]|e] tr'] eqn:Hm; try discriminate Hrun.
    + by apply IH.
    + exfalso. unfold chat_model, bind in Hm.
      destruct (for_each (range config.MAX_RETRIES) _ tr) as [[[text|]|e] tr''];
        discriminate Hm.
Qed.

Lemma chat_success_is_last w self prompt model max_tokens temperature tr :
  exists result evs,
    chat w self prompt model max_tokens temperature tr = (result, tr ++ evs) /\
    forall (i : nat) rq reply text,
      evs !! i = Some (Post rq reply) ->
      success_text reply = Some text ->
      result = Ok text /\ S i = length evs.
Proof.
  destruct (chat_run w self prompt model max_tokens temperature tr)
    as (text0 & tr' & Hrun & [Hs|[-> Hf]]).
  - destruct Hs as (evs & rq0 & reply0 & -> & Hfail & _ & Htext0).
    exists (Ok text0), (ChatCall prompt :: evs ++ [Post rq0 reply0]).
    split; [by rewrite Hrun, <- app_assoc|].
    intros [|i] rq reply text Hi Hreply; [done|].
    change ((evs ++ [Post rq0 reply0]) !! i = Some (Post rq reply)) in Hi.
    destruct (decide (i < length evs)%nat) as [Hlt|Hge].
    + rewrite lookup_app_l in Hi by done.
      eapply Forall_lookup_1 in Hfail; [|exact Hi]. cbn in Hfail. congruence.
    + rewrite lookup_app_r in Hi by lia.
      destruct (i - length evs)%nat as [|j] eqn:Hj; [|done].
      cbn in Hi. injection Hi as <- <- . split; [congruence|].
      cbn. rewrite length_app. cbn. lia.
  - destruct Hf as (evs & -> & Hfail & _).
    exists (Ok ALL_UNAVAILABLE), (ChatCall prompt :: evs).
    split; [by rewrite Hrun, <- app_assoc|].
    intros [|i] rq reply text Hi Hreply; [done|].
    change (evs !! i = Some (Post rq reply)) in Hi.
    eapply Forall_lookup_1 in Hfail; [|exact Hi]. cbn in Hfail. congruence.
Qed.

(** C6, as the code has it.  Take a call of [chat] and a model [m] of
    its attempt order whose predecessors [pre] have all given up,
    leaving the trace [tr1].  (a) When the three attempts of [m] are
    answered with HTTP 429, the call pauses 1, 2 and 4 seconds after
    them and goes on with the models after [m].  (b) When the first
    attempt of [m] is answered with HTTP 200 and a body that carries the
    text, the call returns that text and that request is its last
    event.  (c) In every call, a request answered with HTTP 200 and a
    text is the last event, and its text is what the call returns.  A
    reply with status 200 whose body lacks the text is not covered: the
    code retries it. *)
Theorem chat_backoff_and_first_success w self prompt model max_tokens
    temperature tr pre m rest tr1 :
  let messages := chat_messages prompt in
  let max_tokens' := int_or max_tokens config.MAX_TOKENS in
  let temperature' := float_or temperature config.TEMPERATURE in
  let rq := chat_request self messages max_tokens' temperature' m in
  let n := count_posts tr1 in
  models_to_try self model = pre ++ m :: rest ->
  chat_models w self messages max_tokens' temperature' pre (tr ++ [ChatCall prompt])
  = (Ok None, tr1) ->
  (forall r0 r1 r2,
     requests_post w n rq = Ok r0 -> status_code r0 = 429 ->
     requests_post w (S n) rq = Ok r1 -> status_code r1 = 429 ->
     requests_post w (S (S n)) rq = Ok r2 -> status_code r2 = 429 ->
     chat w self prompt model max_tokens temperature tr
     = chat_outcome
         (chat_models w self messages max_tokens' temperature' rest
            (tr1 ++ [Post rq (Ok r0); Sleep 1;
                     Post rq (Ok r1); Sleep 2;
                     Post rq (Ok r2); Sleep 4])))
  /\
  (forall text,
     success_text (requests_post w n rq) = Some text ->
     chat w self prompt model max_tokens temperature tr
     = (Ok text, tr1 ++ [Post rq (requests_post w n rq)]))
  /\
  (exists result evs,
     chat w self prompt model max_tokens temperature tr = (result, tr ++ evs) /\
     forall (i : nat) rq' reply text,
       evs !! i = Some (Post rq' reply) ->
       success_text reply = Some text ->
       result = Ok text /\ S i = length evs).
Proof.
  intros messages max_tokens' temperature' rq n Hsplit Hpre.
  assert (Hchat : chat w self prompt model max_tokens temperature tr
                  = chat_outcome
                      (chat_models w self messages max_tokens' temperature'
                         (m :: rest) tr1)).
  { unfold chat, bind, emit. cbn zeta.
    fold messages max_tokens' temperature'.
    rewrite Hsplit, (chat_models_app _ _ _ _ _ _ _ _ _ Hpre).
    unfold chat_outcome, ret.
    generalize (chat_models w self messages max_tokens' temperature' (m :: rest) tr1).
    by intros [[[text|]|e] tr']. }
  split; [|split].
  - intros r0 r1 r2 H0 Hc0 H1 Hc1 H2 Hc2. rewrite Hchat.
    by rewrite (chat_models_backoff w self messages max_tokens' temperature'
                  m rest tr1 r0 r1 r2 H0 Hc0 H1 Hc1 H2 Hc2).
  - intros text Htext. rewrite Hchat.
    unfold chat_models. cbn [for_each]. unfold bind at 1. unfold chat_model.
    change (range config.MAX_RETRIES) with [0; 1; 2]. cbn [for_each].
    unfold bind at 1 2.
    by rewrite (chat_attempt_success w self messages max_tokens' temperature'
                  m 0 tr1 text Htext).
  - apply chat_success_is_last.
Qed.

(** C10.  An explicit [max_tokens] of 0 and an explicit [temperature] of
    0.0 run the very computation that omitted parameters run, and every
    request of such a call carries [config.MAX_TOKENS] and
    [config.TEMPERATURE]. *)
Theorem chat_falsy_overrides_are_defaults w self prompt model :
  (forall temperature,
     chat w self prompt model (Some 0) temperature
     = chat w self prompt model None temperature)
  /\
  (forall max_tokens,
     chat w self prompt model max_tokens (Some 0%float)
     = chat w self prompt model max_tokens None)
  /\
  chat w self prompt model (Some 0) (Some 0%float)
  = chat w self prompt model None None
  /\
  (forall tr result tr' rq reply,
     chat w self prompt model (Some 0) (Some 0%float) tr = (result, tr') ->
     Post rq reply ∈ drop (length tr) tr' ->
     max_tokens (rq_json rq) = config.MAX_TOKENS /\
     temperature (rq_json rq) = config.TEMPERATURE).
Proof.
  split; [done|]. split; [done|]. split; [done|].
  intros tr result tr' rq reply Hrun Hin.
  destruct (chat_run w self prompt model (Some 0) (Some 0%float) tr)
    as (text & tr1 & Hrun1 & Hcases).
  rewrite Hrun in Hrun1. injection Hrun1 as -> ->.
  assert (Hall : exists evs, tr1 = tr ++ ChatCall prompt :: evs /\
            Forall (loop_event w self (chat_messages prompt) config.MAX_TOKENS
                      config.TEMPERATURE (models_to_try self model)) evs).
  { destruct Hcases as [(evs & rq0 & reply0 & -> & _ & HP & _)|[_ (evs & -> & _ & HP)]].
    - exists (evs ++ [Post rq0 reply0]). by rewrite <- app_assoc.
    - exists evs. by rewrite <- app_assoc. }
  destruct Hall as (evs & -> & HP).
  rewrite drop_app_length in Hin.
  apply elem_of_cons in Hin as [Hin|Hin]; [done|].
  rewrite Forall_forall in HP. apply HP in Hin.
  destruct Hin as [(m & _ & ->) _]. done.
Qed.

(** ** Substrings *)

Lemma startswith_spec p s : startswith p s = true <-> exists post, s = p ++ post.
Proof.
  revert s. induction p as [|x p IH]; intros s; cbn.
  - split; [by exists s|done].
  - destruct s as [|y s]; [split; [done|by intros [? ?]]|].
    rewrite andb_true_iff, N.eqb_eq, IH. split.
    + intros [-> [post ->]]. by exists post.
    + intros [post [= -> ->]]. split; [done|by exists post].
Qed.

Lemma str_in_contains sub s : str_in sub s = true <-> contains s sub.
Proof.
  unfold contains. induction s as [|c s IH]; cbn [str_in].
  - rewrite orb_false_r, startswith_spec. split.
    + intros [post Hs]. by exists [], post.
    + intros (pre & post & Hs). symmetry in Hs.
      apply app_eq_nil in Hs as [-> Hs]. by exists post.
  - rewrite orb_true_iff, startswith_spec, IH. split.
    + intros [[post Hs]|(pre & post & ->)]; [by exists [], post|].
      by exists (c :: pre), post.
    + intros ([|c' pre] & post & Hs); [left; by exists post|].
      injection Hs as -> ->. right. by exists pre, post.
Qed.

Lemma any_in_contains words s :
  any_in words s = true <-> exists word, word ∈ words /\ contains s word.
Proof.
  unfold any_in. rewrite existsb_exists. split.
  - intros (word & Hin & Hw). exists word.
    by rewrite list_elem_of_In, <- str_in_contains.
  - intros (word & Hin & Hw). exists word.
    by rewrite <- list_elem_of_In, str_in_contains.
Qed.

Lemma any_in_false words s :
  (forall word, word ∈ words -> ~ contains s word) -> any_in words s = false.
Proof.
  intros Hno. destruct (any_in words s) eqn:Hany; [|done].
  apply any_in_contains in Hany as (word & Hin & Hw). by destruct (Hno word).
Qed.

(** A decision procedure for the absence of every word of a list. *)
Lemma absent_words words s :
  forallb (fun word => negb (str_in word s)) words = true ->
  forall word, word ∈ words -> ~ contains s word.
Proof.
  intros Hall word Hin Hc. rewrite forallb_forall in Hall.
  apply list_elem_of_In, Hall in Hin. apply str_in_contains in Hc.
  by rewrite Hc in Hin.
Qed.

Lemma contains_here s post : contains (s ++ post) s.
Proof. by exists [], post. Qed.

Lemma contains_app_r pre s sub : contains s sub -> contains (pre ++ s) sub.
Proof. intros (a & b & ->). exists (pre ++ a), b. by rewrite <- app_assoc. Qed.

Lemma contains_app_l s post sub : contains s sub -> contains (s ++ post) sub.
Proof. intros (a & b & ->). exists a, (b ++ post). by rewrite <- !app_assoc. Qed.

Lemma contains_trans s t u : contains s t -> contains t u -> contains s u.
Proof.
  intros (a & b & ->) Hu. apply contains_app_r, contains_app_l, Hu.
Qed.

Lemma contains_join sep parts p : p ∈ parts -> contains (join sep parts) p.
Proof.
  induction parts as [|q parts IH]; [by intros ?%elem_of_nil|].
  intros Hin. cbn [join]. destruct parts as [|q' parts].
  - apply list_elem_of_singleton in Hin as ->. exists [], []. by rewrite app_nil_r.
  - apply elem_of_cons in Hin as [->|Hin]; [apply contains_here|].
    by apply contains_app_r, contains_app_r, IH.
Qed.

(** ** The classifier *)

Lemma first_match_at rules query_lower pre keywords outcome post :
  rules = pre ++ (keywords, outcome) :: post ->
  Forall (fun rule => any_in rule.1 query_lower = false) pre ->
  any_in keywords query_lower = true ->
  first_match rules query_lower = outcome.
Proof.
  intros -> Hpre Hkw.
  induction Hpre as [|[kws o] pre Hno _ IH]; cbn [app first_match].
  - by rewrite Hkw.
  - cbn [fst] in Hno. by rewrite Hno.
Qed.

Lemma first_match_default rules query_lower :
  Forall (fun rule => any_in rule.1 query_lower = false) rules ->
  first_match rules query_lower = default_rule.
Proof.
  induction 1 as [|[kws o] rules Hno _ IH]; cbn [first_match]; [done|].
  cbn [fst] in Hno. by rewrite Hno.
Qed.

Lemma analyze_query_table `{PyRuntime} query :
  (type (analyze_query query), k_docs (analyze_query query))
  = first_match classifier_rules (str_lower query).
Proof.
  unfold analyze_query, classifier_rules, first_match, default_rule.
  repeat match goal with |- context [any_in ?ws ?s] => destruct (any_in ws s) end;
    reflexivity.
Qed.

Lemma analyze_query_at `{PyRuntime} query pre keywords ty k post :
  classifier_rules = pre ++ (keywords, (ty, k)) :: post ->
  Forall (fun rule => any_in rule.1 (str_lower query) = false) pre ->
  any_in keywords (str_lower query) = true ->
  type (analyze_query query) = ty /\ k_docs (analyze_query query) = k.
Proof.
  intros Hrules Hpre Hkw. pose proof (analyze_query_table query) as Htable.
  rewrite (first_match_at _ _ _ _ _ _ Hrules Hpre Hkw) in Htable.
  by injection Htable.
Qed.

Lemma analyze_query_default `{PyRuntime} query :
  Forall (fun rule => any_in rule.1 (str_lower query) = false) classifier_rules ->
  type (analyze_query query) = py "general" /\ k_docs (analyze_query query) = 5.
Proof.
  intros Hnone. pose proof (analyze_query_table query) as Htable.
  rewrite (first_match_default _ _ Hnone) in Htable. by injection Htable.
Qed.

(** C8.  [analyze_query] reads the lowered query against the keyword
    sets in the order character analysis, plot summary, question words,
    comparison; the first set with a keyword in the query decides type
    and breadth, no match gives the default [general] with 5, the
    breadth is always one of 3, 4, 5, 6, and [complexity] is the number
    of words.  The classifier is a function of the query alone: it
    reads and extends no trace. *)
Theorem analyze_query_first_match_wins `{PyRuntime} query :
  let a := analyze_query query in
  let query_lower := str_lower query in
  (type a, k_docs a) = first_match classifier_rules query_lower
  /\ (forall pre keywords ty k post,
        classifier_rules = pre ++ (keywords, (ty, k)) :: post ->
        Forall (fun rule => any_in rule.1 query_lower = false) pre ->
        any_in keywords query_lower = true ->
        type a = ty /\ k_docs a = k)
  /\ (Forall (fun rule => any_in rule.1 query_lower = false) classifier_rules ->
      type a = py "general" /\ k_docs a = 5)
  /\ k_docs a ∈ [3; 4; 5; 6]
  /\ complexity a = Z.of_nat (length (split query))
  /\ map (fun rule => rule.2.1) classifier_rules
     = [py "character_analysis"; py "plot_summary"; py "detail_query"; py "comparison"].
Proof.
  intros a query_lower.
  pose proof (analyze_query_table query) as Htable. fold a query_lower in Htable.
  split; [exact Htable|]. split; [|split; [|split; [|split]]].
  - intros pre keywords ty k post. apply analyze_query_at.
  - apply analyze_query_default.
  - subst a. unfold analyze_query.
    repeat match goal with |- context [any_in ?ws ?s] => destruct (any_in ws s) end;
      cbn; set_solver.
  - subst a. unfold analyze_query.
    repeat match goal with |- context [any_in ?ws ?s] => destruct (any_in ws s) end;
      reflexivity.
  - done.
Qed.

Lemma no_keyword rules query_lower :
  (forall word, word ∈ keywords_of rules -> ~ contains query_lower word) ->
  Forall (fun rule => any_in rule.1 query_lower = false) rules.
Proof.
  intros Hno. apply Forall_forall. intros rule Hrule.
  apply any_in_false. intros word Hword. apply Hno.
  unfold keywords_of. rewrite list_elem_of_In, in_flat_map.
  exists rule. by rewrite <- !list_elem_of_In.
Qed.

(** C5, as the code has it.  A lowered query that contains "who is" is
    a character analysis with breadth 4; one that contains "compare" or
    "vs" is a comparison with breadth 5 provided no keyword of the three
    categories tested earlier occurs in it; one that contains no keyword
    at all is general with breadth 5. *)
Theorem analyze_query_keywords `{PyRuntime} query :
  let a := analyze_query query in
  let query_lower := str_lower query in
  (contains query_lower (py "who is") ->
   type a = py "character_analysis" /\ k_docs a = 4)
  /\ (contains query_lower (py "compare") \/ contains query_lower (py "vs") ->
      (forall word, word ∈ earlier_keywords -> ~ contains query_lower word) ->
      type a = py "comparison" /\ k_docs a = 5)
  /\ ((forall word, word ∈ keywords_of classifier_rules ->
         ~ contains query_lower word) ->
      type a = py "general" /\ k_docs a = 5).
Proof.
  intros a query_lower.
  pose proof (analyze_query_at query) as Hat.
  pose proof (analyze_query_default query) as Hdefault.
  fold a query_lower in Hat, Hdefault.
  split; [|split].
  - intros Hwho.
    eapply (Hat []); [reflexivity|constructor|].
    apply any_in_contains. exists (py "who is"). split; [by left|done].
  - intros Hcmp Hearlier.
    eapply (Hat (take 3 classifier_rules)); [reflexivity| |].
    + by apply no_keyword.
    + apply any_in_contains.
      destruct Hcmp; [exists (py "compare")|exists (py "vs")]; split;
        [by left|done|by do 2 right; left|done].
  - intros Hnone. apply Hdefault. by apply no_keyword.
Qed.

(** ** Retrieval *)

Section RetrievalFacts.
Context `{PyRuntime}.

Abbreviation content_of := (fun doc : document => strip (page_content doc)).

(** The loop of [retrieve_context] computes the two filters one after
    the other. *)
Lemma select_doc_filters docs context_parts seen_content :
  (foldl select_doc (context_parts, seen_content) docs).1
  = context_parts
    ++ drop_seen seen_content
         (filter (fun p => 50 < length p)%nat (content_of <$> docs)).
Proof.
  revert context_parts seen_content.
  induction docs as [|doc docs IH]; intros context_parts seen_content.
  - cbn. by rewrite app_nil_r.
  - cbn [foldl fmap list_fmap]. rewrite filter_cons. unfold select_doc at 2.
    fold (prefix_hash (content_of doc)).
    destruct (decide (50 < length (content_of doc))%nat) as [Hlong|Hshort].
    + rewrite (bool_decide_eq_true_2 _ Hlong), andb_true_r.
      cbn [drop_seen].
      destruct (decide (prefix_hash (content_of doc) ∈ seen_content)) as [Hseen|Hnew].
      * rewrite bool_decide_eq_false_2 by (by intros Hn; apply Hn). apply IH.
      * rewrite (bool_decide_eq_true_2 _ Hnew). rewrite IH.
        rewrite <- app_assoc. cbn [app].
        by rewrite (comm_L (∪) seen_content).
    + rewrite (bool_decide_eq_false_2 _ Hshort), andb_false_r. apply IH.
Qed.

Lemma fetch_run w query tr :
  try_except (invoke w query)
    (fun e =>
       match exn_class_of e with
       | AttributeError => get_relevant_documents w query
       | _ => raise e
       end) tr
  = (retrieved w query, tr ++ retriever_events w query).
Proof.
  unfold try_except, invoke, get_relevant_documents, bind, emit, lift, raise,
    retrieved, retriever_events.
  destruct (retriever_invoke w query) as [docs|e]; [done|].
  destruct (exn_class_of e); try done.
  by rewrite <- app_assoc.
Qed.

Lemma retrieve_context_run w self query a tr :
  is_initialized self = true ->
  retrieve_context w self query (Some a) tr
  = (match retrieved w query with
     | Ok docs => Ok (filtered_context (k_docs a) docs)
     | Raise e => Raise e
     end, tr ++ retriever_events w query).
Proof.
  intros Hinit. unfold retrieve_context. rewrite Hinit. cbn [negb].
  unfold bind at 1. rewrite fetch_run.
  destruct (retrieved w query) as [docs|e]; [|done].
  destruct docs as [|doc docs]; cbn [truthy negb].
  - unfold ret, filtered_context, slice_to.
    by destruct (0 <=? k_docs a); rewrite take_nil.
  - unfold filtered_context.
    pose proof (select_doc_filters (slice_to (k_docs a) (doc :: docs)) [] ∅) as Hsel.
    destruct (foldl select_doc _ _) as [context_parts seen]. cbn in Hsel.
    by rewrite Hsel.
Qed.

Lemma retriever_events_no_client w query :
  Forall (fun e => is_client_event e = false) (retriever_events w query).
Proof.
  unfold retriever_events.
  destruct (retriever_invoke w query) as [|e]; [|destruct (exn_class_of e)];
    by repeat constructor.
Qed.

Lemma drop_seen_sublist seen passages : drop_seen seen passages `sublist_of` passages.
Proof.
  revert seen. induction passages as [|p ps IH]; intros seen; cbn; [done|].
  destruct (decide _); [by apply sublist_cons|by apply sublist_skip].
Qed.

Lemma drop_seen_hashes seen passages :
  NoDup (prefix_hash <$> drop_seen seen passages)
  /\ forall p, p ∈ drop_seen seen passages -> prefix_hash p ∉ seen.
Proof.
  revert seen. induction passages as [|p ps IH]; intros seen; cbn.
  - split; [constructor|]. by intros p Hp%elem_of_nil.
  - destruct (decide (prefix_hash p ∈ seen)) as [Hseen|Hnew]; [apply IH|].
    destruct (IH ({[prefix_hash p]} ∪ seen)) as [Hnodup Hnot].
    split.
    + cbn. constructor; [|done]. intros Hin.
      apply list_elem_of_fmap in Hin as (q & Hq & Hin).
      apply Hnot in Hin. apply Hin, elem_of_union_l, elem_of_singleton.
      by symmetry.
    + intros q [->|Hq]%elem_of_cons; [done|]. apply Hnot in Hq.
      intros Hs. by apply Hq, elem_of_union_r.
Qed.

(** The first occurrence of a prefix hash is kept, a later one goes. *)
Lemma drop_seen_first seen p ps :
  prefix_hash p ∉ seen ->
  drop_seen seen (p :: ps) = p :: drop_seen ({[prefix_hash p]} ∪ seen) ps
  /\ forall q, prefix_hash q = prefix_hash p ->
       q ∉ drop_seen ({[prefix_hash p]} ∪ seen) ps.
Proof.
  intros Hnew. split; [cbn; by rewrite decide_False|].
  intros q Hq Hin. apply drop_seen_hashes in Hin. set_solver.
Qed.

(** C4, as the code has it.  Of the first [k_docs] retrieved documents,
    whitespace-stripped, [retrieve_context] (a) drops the passages of at
    most 50 characters and then (b) drops the passages whose
    first-100-character prefix hash occurs on an earlier survivor of
    (a); what remains is returned in retrieval order, so it has at most
    [k_docs] passages, each longer than 50, with pairwise distinct
    prefix hashes. *)
Theorem retrieve_context_filters w self query a docs tr :
  is_initialized self = true ->
  retrieved w query = Ok docs ->
  let result := filtered_context (k_docs a) docs in
  retrieve_context w self query (Some a) tr
  = (Ok result, tr ++ retriever_events w query)
  /\ result `sublist_of` (content_of <$> docs)
  /\ (0 <= k_docs a -> Z.of_nat (length result) <= k_docs a)
  /\ Forall (fun p => (50 < length p)%nat) result
  /\ NoDup (prefix_hash <$> result).
Proof.
  intros Hinit Hdocs result.
  split; [by rewrite retrieve_context_run, Hdocs|].
  assert (Hsub : result `sublist_of` (content_of <$> slice_to (k_docs a) docs)).
  { unfold result, filtered_context.
    etrans; [apply drop_seen_sublist|]. apply sublist_filter. }
  split; [|split; [|split]].
  - etrans; [exact Hsub|]. apply fmap_sublist.
    unfold slice_to. destruct (0 <=? k_docs a); apply sublist_take.
  - intros Hk. apply sublist_length in Hsub.
    rewrite length_fmap in Hsub. unfold slice_to in Hsub.
    rewrite (proj2 (Z.leb_le 0 (k_docs a)) Hk) in Hsub.
    rewrite length_take in Hsub. lia.
  - apply Forall_forall. intros p Hp. unfold result, filtered_context in Hp.
    apply (sublist_subseteq _ _ (drop_seen_sublist _ _)) in Hp.
    by apply list_elem_of_filter in Hp as [Hlong _].
  - apply drop_seen_hashes.
Qed.

(** C7.  Before initialization [retrieve_context] raises (a
    [RuntimeError], without asking the retriever); once initialized, a
    retriever that yields no documents makes it return the empty list as
    a value. *)
Theorem retrieve_context_uninitialized_or_empty w self query a tr :
  (is_initialized self = false ->
   retrieve_context w self query a tr
   = (Raise (Exn RuntimeError
               (py "RAG system not initialized. Call initialize() first.")), tr))
  /\ (is_initialized self = true ->
      retrieved w query = Ok [] ->
      retrieve_context w self query a tr = (Ok [], tr ++ retriever_events w query)).
Proof.
  split.
  - intros Hinit. unfold retrieve_context. by rewrite Hinit.
  - intros Hinit Hdocs. unfold retrieve_context. rewrite Hinit. cbn [negb].
    unfold bind. by rewrite fetch_run, Hdocs.
Qed.

(** ** The response assembler *)

(** C1.  For a query that is not blank: when [retrieve_context] returns
    no passage, [generate_response] returns the fixed
    no-information message, and the call logs no event of the completion
    client: neither a call of [chat] nor a request. *)
Theorem no_context_short_circuit w self query tr :
  truthy (strip query) = true ->
  (retrieve_context w self (strip query)
     (Some (analyze_query (strip query))) tr).1 = Ok [] ->
  exists evs,
    generate_response w self query tr = (Ok NO_INFORMATION, tr ++ evs)
    /\ Forall (fun e => is_client_event e = false) evs.
Proof.
  intros Hquery Hnone.
  assert (Hinit : is_initialized self = true).
  { destruct (is_initialized self) eqn:Hinit; [done|].
    unfold retrieve_context in Hnone. by rewrite Hinit in Hnone. }
  assert (Hq : truthy query = true).
  { destruct query; [|done]. by vm_compute in Hquery. }
  rewrite retrieve_context_run in Hnone by done.
  exists (retriever_events w (strip query)).
  split; [|apply retriever_events_no_client].
  unfold generate_response, generate_response_with, generate_response_try,
    try_except.
  rewrite Hq, Hquery, Hinit. cbn [negb orb].
  unfold bind at 1. unfold ret at 1. unfold bind at 1.
  rewrite retrieve_context_run by done.
  cbn [fst] in Hnone. destruct (retrieved w (strip query)) as [docs|e]; [|done].
  injection Hnone as ->. done.
Qed.

Lemma analyze_query_type_title query :
  (type (analyze_query query),
   title (replace_char 95 32 (type (analyze_query query))))
  ∈ [ (py "character_analysis", py "Character Analysis");
      (py "plot_summary", py "Plot Summary");
      (py "detail_query", py "Detail Query");
      (py "comparison", py "Comparison");
      (py "general", py "General") ].
Proof.
  unfold analyze_query.
  repeat match goal with |- context [any_in ?ws ?s] => destruct (any_in ws s) end;
    cbn [type].
  - replace (title _) with (py "Character Analysis") by (vm_compute; reflexivity).
    left.
  - replace (title _) with (py "Plot Summary") by (vm_compute; reflexivity).
    right; left.
  - replace (title _) with (py "Detail Query") by (vm_compute; reflexivity).
    right; right; left.
  - replace (title _) with (py "Comparison") by (vm_compute; reflexivity).
    right; right; right; left.
  - replace (title _) with (py "General") by (vm_compute; reflexivity).
    right; right; right; right; left.
Qed.

(** C9, as the code has it.  When the completion client returns a text
    that is not empty and contains (lowered) none of the words "sorry",
    "error", "failed", "unavailable", [generate_response] returns the
    heading, that text, a rule, the line "Answer compiled from n
    relevant passages ..." with n the number of context passages, and
    the line "Query type: T" with T the title-cased type of the query.
    A returned text that is empty or contains one of these words comes
    back after the plain "Magical Response" prefix and nothing else. *)
Theorem completion_text_is_annotated w self query tr context_parts tr1
    response tr2 :
  let query' := strip query in
  let a := analyze_query query' in
  let type_title := title (replace_char 95 32 (type a)) in
  truthy query' = true ->
  retrieve_context w self query' (Some a) tr = (Ok context_parts, tr1) ->
  truthy context_parts = true ->
  chat w (groq_client w) (create_enhanced_prompt query' context_parts a)
    None None None tr1 = (Ok response, tr2) ->
  exists out,
    generate_response w self query tr = (Ok out, tr2)
    /\ (truthy response = true ->
        any_in error_words (str_lower response) = false ->
        out = join nl
                [ py "🔮 **Magical Knowledge Retrieved:**";
                  [];
                  response;
                  [];
                  py "---";
                  py "✨ *Answer compiled from "
                    ++ str_of_nat (length context_parts)
                    ++ py " relevant passages across the Harry Potter books*  ";
                  py "🏰 *Query type: " ++ type_title ++ py "*" ]
        /\ contains out response
        /\ contains out (py "Answer compiled from "
                         ++ str_of_nat (length context_parts)
                         ++ py " relevant passages")
        /\ contains out (py "Query type: " ++ type_title)
        /\ (type a, type_title)
           ∈ [ (py "character_analysis", py "Character Analysis");
               (py "plot_summary", py "Plot Summary");
               (py "detail_query", py "Detail Query");
               (py "comparison", py "Comparison");
               (py "general", py "General") ])
    /\ (truthy response = false
        \/ any_in error_words (str_lower response) = true ->
        out = py "🧙‍♂️ **Magical Response:** " ++ response).
Proof.
  intros query' a type_title Hquery Hparts Hsome Hchat.
  assert (Hinit : is_initialized self = true).
  { destruct (is_initialized self) eqn:Hinit; [done|].
    unfold retrieve_context in Hparts. by rewrite Hinit in Hparts. }
  assert (Hq : truthy query = true).
  { destruct query; [|done]. by vm_compute in Hquery. }
  assert (Hrun : generate_response w self query tr
                 = (Ok (if truthy response
                           && negb (any_in error_words (str_lower response))
                        then enhanced_response response (length context_parts) a
                        else magical_response response), tr2)).
  { unfold generate_response, generate_response_with, generate_response_try,
      try_except.
    fold query'. rewrite Hq, Hquery, Hinit. cbn [negb orb].
    unfold bind at 1. unfold ret at 1. fold a. unfold bind at 1.
    rewrite Hparts, Hsome. cbn [negb].
    unfold bind at 1. unfold ret at 1. unfold bind at 1. rewrite Hchat.
    by destruct (truthy response && _). }
  eexists. split; [exact Hrun|]. split.
  - intros -> ->. cbn [andb negb]. unfold enhanced_response. fold type_title.
    split; [reflexivity|]. split; [|split; [|split]].
    + apply contains_join. do 2 right. left.
    + eapply contains_trans; [apply contains_join; do 5 right; left|].
      exists (py "✨ *"), (py " across the Harry Potter books*  ").
      replace (py "✨ *Answer compiled from ")
        with (py "✨ *" ++ py "Answer compiled from ") by (vm_compute; reflexivity).
      replace (py " relevant passages across the Harry Potter books*  ")
        with (py " relevant passages" ++ py " across the Harry Potter books*  ")
        by (vm_compute; reflexivity).
      by rewrite <- !app_assoc.
    + eapply contains_trans; [apply contains_join; do 6 right; left|].
      exists (py "🏰 *"), (py "*").
      replace (py "🏰 *Query type: ")
        with (py "🏰 *" ++ py "Query type: ") by (vm_compute; reflexivity).
      by rewrite <- !app_assoc.
    + apply analyze_query_type_title.
  - intros [-> | ->]; unfold magical_response; [done|].
    by rewrite andb_false_r.
Qed.

End RetrievalFacts.

(** C3.  Whatever the classifier, the retriever, the prompt composer and
    the completion client do, [generate_response] returns a string: an
    exception that leaves its [try] block becomes the "Spell
    Malfunction" message around [str(e)], and so does, for a non-blank
    query on an initialized pipeline, an exception raised by any of the
    four. *)
Theorem generate_response_catches_everything `{PyRuntime}
    (analyze_query : pystr -> M analysis)
    (retrieve_context : pystr -> analysis -> M (list pystr))
    (create_enhanced_prompt : pystr -> list pystr -> analysis -> M pystr)
    (chat : pystr -> M pystr)
    (self : HarryPotterRAG) (query : pystr) (tr : trace) :
  let run := generate_response_with analyze_query retrieve_context
               create_enhanced_prompt chat self query tr in
  let query' := strip query in
  (exists text tr', run = (Ok text, tr'))
  /\ (forall e tr',
        generate_response_try analyze_query retrieve_context
          create_enhanced_prompt chat self query tr = (Raise e, tr') ->
        run = (Ok (spell_malfunction e), tr'))
  /\ (truthy query' = true -> is_initialized self = true ->
      (forall e tr1,
         analyze_query query' tr = (Raise e, tr1) ->
         run = (Ok (spell_malfunction e), tr1))
      /\ (forall a tr1 e tr2,
            analyze_query query' tr = (Ok a, tr1) ->
            retrieve_context query' a tr1 = (Raise e, tr2) ->
            run = (Ok (spell_malfunction e), tr2))
      /\ (forall a tr1 parts tr2 e tr3,
            analyze_query query' tr = (Ok a, tr1) ->
            retrieve_context query' a tr1 = (Ok parts, tr2) ->
            truthy parts = true ->
            create_enhanced_prompt query' parts a tr2 = (Raise e, tr3) ->
            run = (Ok (spell_malfunction e), tr3))
      /\ (forall a tr1 parts tr2 prompt tr3 e tr4,
            analyze_query query' tr = (Ok a, tr1) ->
            retrieve_context query' a tr1 = (Ok parts, tr2) ->
            truthy parts = true ->
            create_enhanced_prompt query' parts a tr2 = (Ok prompt, tr3) ->
            chat prompt tr3 = (Raise e, tr4) ->
            run = (Ok (spell_malfunction e), tr4))).
Proof.
  intros run query'. subst run. unfold generate_response_with, try_except.
  split; [|split].
  - destruct (generate_response_try _ _ _ _ _ _ _) as [[text|e] tr']; by eexists _, _.
  - by intros e tr' ->.
  - intros Hquery Hinit.
    assert (Hq : truthy query = true).
    { destruct query; [|done]. by vm_compute in Hquery. }
    unfold generate_response_try. fold query'.
    rewrite Hq, Hquery, Hinit. cbn [negb orb].
    repeat split.
    + intros e tr1 Ha. unfold bind. by rewrite Ha.
    + intros a tr1 e tr2 Ha Hr. unfold bind. by rewrite Ha, Hr.
    + intros a tr1 parts tr2 e tr3 Ha Hr Hparts Hp.
      unfold bind. rewrite Ha, Hr, Hparts. cbn [negb]. by rewrite Hp.
    + intros a tr1 parts tr2 prompt tr3 e tr4 Ha Hr Hparts Hp Hc.
      unfold bind. rewrite Ha, Hr, Hparts. cbn [negb]. by rewrite Hp, Hc.
Qed.

(** * Properties of the surrounding code *)

Lemma Ok_inj {A} (a b : A) : Ok a = Ok b -> a = b.
Proof. by intros [= ->]. Qed.

(** ** The completion client: order, bounds, exact retries *)

Lemma post_models_app tr1 tr2 :
  post_models (tr1 ++ tr2) = post_models tr1 ++ post_models tr2.
Proof.
  induction tr1 as [|e tr1 IH]; [done|]. destruct e; cbn; by rewrite ?IH.
Qed.

Lemma sleep_total_app tr1 tr2 :
  sleep_total (tr1 ++ tr2) = sleep_total tr1 + sleep_total tr2.
Proof.
  induction tr1 as [|e tr1 IH]; [done|]. destruct e; cbn; rewrite ?IH; lia.
Qed.

Lemma count_posts_models tr : count_posts tr = length (post_models tr).
Proof. induction tr as [|e tr IH]; [done|]. destruct e; cbn; by rewrite ?IH. Qed.

Lemma attempt_schedule_length models :
  length (attempt_schedule models)
  = (Z.to_nat config.MAX_RETRIES * length models)%nat.
Proof.
  induction models as [|m models IH]; [done|].
  cbn [attempt_schedule]. rewrite length_app, length_replicate, IH. cbn. lia.
Qed.

Section ClientBounds.
Variables (w : world) (self : GroqClient) (messages : list message).
Variables (max_tokens : Z) (temperature : float).

Abbreviation request_of := (chat_request self messages max_tokens temperature).
Abbreviation attempt_of := (chat_attempt w self messages max_tokens temperature).

(** A failed attempt: what it returns and how long it pauses. *)
Lemma chat_attempt_pauses m retry tr :
  0 <= retry ->
  success_text (requests_post w (count_posts tr) (request_of m)) = None ->
  exists pauses,
    attempt_of m retry tr
    = (Ok (last_retry retry),
       tr ++ Post (request_of m) (requests_post w (count_posts tr) (request_of m))
          :: pauses)
    /\ post_models pauses = []
    /\ 0 <= sleep_total pauses <= 2 ^ retry.
Proof.
  intros Hretry.
  assert (Hpow : 1 <= 2 ^ retry).
  { change 1 with (2 ^ 0). apply Z.pow_le_mono_r; lia. }
  unfold chat_attempt, try_except, bind, post, lift, ret, sleep, emit,
    last_retry, success_text.
  destruct (requests_post _ _ _) as [[code [text|e]]|e]; cbn.
  - destruct (code =? 200); [done|]. intros _.
    destruct (code =? 429); cbn.
    + exists [Sleep (2 ^ retry)]. rewrite <- app_assoc. cbn.
      split; [by destruct (retry =? _)|]. split; [done|lia].
    + exists []. split; [by destruct (retry =? _)|]. cbn. split; [done|lia].
  - intros _. destruct (code =? 200); cbn.
    + destruct (exn_class_of e), (retry =? _); cbn;
        first [ exists []; split; [done|]; cbn; split; [done|lia]
              | exists [Sleep 1]; rewrite <- app_assoc; cbn;
                split; [done|]; split; [done|lia] ].
    + destruct (code =? 429); cbn.
      * exists [Sleep (2 ^ retry)]. rewrite <- app_assoc. cbn.
        split; [by destruct (retry =? _)|]. split; [done|lia].
      * exists []. split; [by destruct (retry =? _)|]. cbn. split; [done|lia].
  - intros _.
    destruct (exn_class_of e), (retry =? _); cbn;
      first [ exists []; split; [done|]; cbn; split; [done|lia]
            | exists [Sleep 1]; rewrite <- app_assoc; cbn;
              split; [done|]; split; [done|lia] ].
Qed.

(** One attempt, whatever the reply: one request for [m], then pauses
    of at most [2 ^ retry] seconds. *)
Lemma chat_attempt_shape m retry tr :
  0 <= retry ->
  exists c evs,
    attempt_of m retry tr = (Ok c, tr ++ evs)
    /\ post_models evs = [m]
    /\ 0 <= sleep_total evs <= 2 ^ retry
    /\ match c with Return _ => True | _ => c = last_retry retry end.
Proof.
  intros Hretry.
  assert (Hpow : 1 <= 2 ^ retry).
  { change 1 with (2 ^ 0). apply Z.pow_le_mono_r; lia. }
  destruct (success_text (requests_post w (count_posts tr) (request_of m)))
    as [text|] eqn:Hreply.
  - exists (Return text), [Post (request_of m)
                             (requests_post w (count_posts tr) (request_of m))].
    split; [by apply chat_attempt_success|]. cbn. repeat split; lia.
  - destruct (chat_attempt_pauses m retry tr Hretry Hreply)
      as (pauses & Hrun & Hposts & Hsleep).
    eexists (last_retry retry), _. split; [exact Hrun|].
    cbn. rewrite Hposts. split; [done|]. split; [lia|].
    unfold last_retry. by destruct (retry =? _).
Qed.

(** A model: at most three requests, all for it, and at most
    1 + 2 + 4 seconds of pauses; three requests when none succeeds. *)
Lemma chat_model_schedule m tr :
  exists c evs,
    chat_model w self messages max_tokens temperature m tr = (Ok c, tr ++ evs)
    /\ 0 <= sleep_total evs <= 7
    /\ match c with
       | Continue => post_models evs = replicate 3 m
       | Return _ => exists j, (j <= 3)%nat /\ post_models evs = replicate j m
       | Break => False
       end.
Proof.
  unfold chat_model. change (range config.MAX_RETRIES) with [0; 1; 2].
  cbn [for_each].
  destruct (chat_attempt_shape m 0 tr) as (c0 & evs0 & H0 & Hm0 & Hs0 & Hc0); [lia|].
  unfold bind at 1 2. rewrite H0.
  destruct c0 as [| |text]; try discriminate Hc0.
  2:{ cbn. exists (Return text), evs0. split; [done|]. split; [lia|].
      exists 1%nat. split; [lia|done]. }
  destruct (chat_attempt_shape m 1 (tr ++ evs0))
    as (c1 & evs1 & H1 & Hm1 & Hs1 & Hc1); [lia|].
  unfold bind at 1. rewrite H1.
  destruct c1 as [| |text]; try discriminate Hc1.
  2:{ cbn. exists (Return text), (evs0 ++ evs1). rewrite app_assoc.
      split; [done|]. rewrite sleep_total_app, post_models_app, Hm0, Hm1.
      split; [lia|]. exists 2%nat. split; [lia|done]. }
  destruct (chat_attempt_shape m 2 ((tr ++ evs0) ++ evs1))
    as (c2 & evs2 & H2 & Hm2 & Hs2 & Hc2); [lia|].
  unfold bind at 1. rewrite H2.
  destruct c2 as [| |text]; try discriminate Hc2.
  - cbn. exists Continue, (evs0 ++ evs1 ++ evs2). rewrite !app_assoc.
    split; [done|]. rewrite <- !app_assoc.
    rewrite !sleep_total_app, !post_models_app, Hm0, Hm1, Hm2.
    split; [lia|done].
  - cbn. exists (Return text), (evs0 ++ evs1 ++ evs2). rewrite !app_assoc.
    split; [done|]. rewrite <- !app_assoc.
    rewrite !sleep_total_app, !post_models_app, Hm0, Hm1, Hm2.
    split; [lia|]. exists 3%nat. split; [lia|done].
Qed.

Lemma chat_models_schedule ms tr :
  exists o evs,
    chat_models w self messages max_tokens temperature ms tr = (Ok o, tr ++ evs)
    /\ 0 <= sleep_total evs <= 7 * Z.of_nat (length ms)
    /\ post_models evs `prefix_of` attempt_schedule ms
    /\ (o = None -> post_models evs = attempt_schedule ms).
Proof.
  revert tr. induction ms as [|m ms IH]; intros tr.
  - exists None, []. rewrite app_nil_r. cbn. repeat split; try done; lia.
  - destruct (chat_model_schedule m tr) as (c & evs1 & H1 & Hs1 & Hc).
    unfold chat_models. cbn [for_each]. unfold bind at 1. rewrite H1.
    destruct c as [| |text]; [|done|].
    + destruct (IH (tr ++ evs1)) as (o & evs2 & H2 & Hs2 & Hp2 & Hn2).
      exists o, (evs1 ++ evs2). rewrite app_assoc. split; [exact H2|].
      rewrite sleep_total_app, post_models_app, Hc. cbn [length attempt_schedule].
      split; [lia|]. split.
      * by apply prefix_app.
      * intros Ho. by rewrite (Hn2 Ho).
    + destruct Hc as (j & Hj & Hposts).
      exists (Some text), evs1. split; [done|]. cbn [length attempt_schedule].
      split; [lia|]. split; [|done]. rewrite Hposts.
      apply prefix_app_r.
      exists (replicate (3 - j) m). rewrite <- replicate_add.
      change (Z.to_nat config.MAX_RETRIES) with 3%nat. f_equal. lia.
Qed.

End ClientBounds.

(** X1.  The requests of a call of [chat] go to the models in the
    attempt order, three in a row per model, and stop with the first
    success: their models are a prefix of the schedule, so a call makes
    at most three requests per model. *)
Theorem chat_requests_follow_the_attempt_order w self prompt model
    max_tokens temperature tr :
  exists text evs,
    chat w self prompt model max_tokens temperature tr
    = (Ok text, tr ++ ChatCall prompt :: evs)
    /\ post_models evs `prefix_of` attempt_schedule (models_to_try self model)
    /\ (count_posts evs
        <= Z.to_nat config.MAX_RETRIES * length (models_to_try self model))%nat.
Proof.
  destruct (chat_models_schedule w self (chat_messages prompt)
              (int_or max_tokens config.MAX_TOKENS)
              (float_or temperature config.TEMPERATURE)
              (models_to_try self model) (tr ++ [ChatCall prompt]))
    as (o & evs & Hrun & _ & Hprefix & _).
  exists (match o with Some text => text | None => ALL_UNAVAILABLE end), evs.
  split; [|split; [done|]].
  - unfold chat, bind, emit. cbn zeta. rewrite Hrun, <- app_assoc.
    by destruct o.
  - rewrite count_posts_models, <- attempt_schedule_length.
    by apply prefix_length.
Qed.

(** X2.  A call of [chat] sleeps at most 7 seconds (1 + 2 + 4) per
    model of its attempt order, whatever the replies. *)
Theorem chat_sleeps_at_most_seven_seconds_per_model w self prompt model
    max_tokens temperature tr :
  exists text evs,
    chat w self prompt model max_tokens temperature tr
    = (Ok text, tr ++ ChatCall prompt :: evs)
    /\ 0 <= sleep_total evs <= 7 * Z.of_nat (length (models_to_try self model)).
Proof.
  destruct (chat_models_schedule w self (chat_messages prompt)
              (int_or max_tokens config.MAX_TOKENS)
              (float_or temperature config.TEMPERATURE)
              (models_to_try self model) (tr ++ [ChatCall prompt]))
    as (o & evs & Hrun & Hsleep & _).
  exists (match o with Some text => text | None => ALL_UNAVAILABLE end), evs.
  split; [|done].
  unfold chat, bind, emit. cbn zeta. rewrite Hrun, <- app_assoc.
  by destruct o.
Qed.

(** X3.  All requests of one call are built from the same parameters
    and differ in the model only, which is one of the attempt order;
    with a non-empty [model] argument every request names that model:
    the fallbacks are not tried. *)
Theorem chat_requests_share_the_call_parameters w self prompt chosen
    max_tokens temperature tr result tr' rq reply :
  chat w self prompt chosen max_tokens temperature tr = (result, tr') ->
  Post rq reply ∈ drop (length tr) tr' ->
  (exists m, m ∈ models_to_try self chosen /\
     rq = chat_request self (chat_messages prompt)
            (int_or max_tokens config.MAX_TOKENS)
            (float_or temperature config.TEMPERATURE) m)
  /\ (forall m, chosen = Some m -> truthy m = true -> model (rq_json rq) = m).
Proof.
  intros Hrun Hin.
  destruct (chat_run w self prompt chosen max_tokens temperature tr)
    as (text & tr1 & Hrun1 & Hcases).
  rewrite Hrun in Hrun1. injection Hrun1 as -> ->.
  assert (Hall : exists evs, tr1 = tr ++ ChatCall prompt :: evs /\
            Forall (loop_event w self (chat_messages prompt)
                      (int_or max_tokens config.MAX_TOKENS)
                      (float_or temperature config.TEMPERATURE)
                      (models_to_try self chosen)) evs).
  { destruct Hcases as [(evs & rq0 & reply0 & -> & _ & HP & _)|[_ (evs & -> & _ & HP)]].
    - exists (evs ++ [Post rq0 reply0]). by rewrite <- app_assoc.
    - exists evs. by rewrite <- app_assoc. }
  destruct Hall as (evs & -> & HP).
  rewrite drop_app_length in Hin.
  apply elem_of_cons in Hin as [Hin|Hin]; [done|].
  rewrite Forall_forall in HP. apply HP in Hin.
  destruct Hin as [(m & Hm & ->) _].
  split; [by exists m|].
  intros m0 -> Htruthy. unfold models_to_try in Hm. rewrite Htruthy in Hm.
  by apply list_elem_of_singleton in Hm as ->.
Qed.

(** X4.  How the other failures are retried.  (a) Three replies with a
    status other than 200 and 429 are three requests in a row, without
    a pause.  (b) Three timeouts or transport errors are three requests
    with a pause of one second after the first and the second, none
    after the third.  In both cases the next model follows. *)
Theorem chat_retries_errors_and_timeouts w self messages max_tokens
    temperature m rest tr :
  let rq := chat_request self messages max_tokens temperature m in
  let n := count_posts tr in
  (forall r0 r1 r2,
     requests_post w n rq = Ok r0 -> status_code r0 <> 200 -> status_code r0 <> 429 ->
     requests_post w (S n) rq = Ok r1 -> status_code r1 <> 200 -> status_code r1 <> 429 ->
     requests_post w (S (S n)) rq = Ok r2 -> status_code r2 <> 200 -> status_code r2 <> 429 ->
     chat_models w self messages max_tokens temperature (m :: rest) tr
     = chat_models w self messages max_tokens temperature rest
         (tr ++ [Post rq (Ok r0); Post rq (Ok r1); Post rq (Ok r2)]))
  /\
  (forall e0 e1 e2,
     requests_post w n rq = Raise e0 ->
     requests_post w (S n) rq = Raise e1 ->
     requests_post w (S (S n)) rq = Raise e2 ->
     chat_models w self messages max_tokens temperature (m :: rest) tr
     = chat_models w self messages max_tokens temperature rest
         (tr ++ [Post rq (Raise e0); Sleep 1; Post rq (Raise e1); Sleep 1;
                 Post rq (Raise e2)])).
Proof.
  intros rq n.
  assert (Hstatus : forall retry tr1 r,
            requests_post w (count_posts tr1) rq = Ok r ->
            status_code r <> 200 -> status_code r <> 429 ->
            chat_attempt w self messages max_tokens temperature m retry tr1
            = (Ok (last_retry retry), tr1 ++ [Post rq (Ok r)])).
  { intros retry tr1 r Hr H200 H429.
    unfold chat_attempt, try_except, bind, post, lift, ret, last_retry.
    fold rq. rewrite Hr.
    destruct (Z.eqb_spec (status_code r) 200); [done|].
    destruct (Z.eqb_spec (status_code r) 429); [done|].
    by destruct (retry =? _). }
  assert (Hraise : forall retry tr1 e,
            requests_post w (count_posts tr1) rq = Raise e ->
            chat_attempt w self messages max_tokens temperature m retry tr1
            = (Ok (last_retry retry),
               tr1 ++ Post rq (Raise e)
                   :: (if retry =? config.MAX_RETRIES - 1 then [] else [Sleep 1]))).
  { intros retry tr1 e He.
    unfold chat_attempt, try_except, bind, post, lift, ret, sleep, emit, last_retry.
    fold rq. rewrite He.
    destruct (exn_class_of e), (retry =? _); cbn; by rewrite <- ?app_assoc. }
  split.
  - intros r0 r1 r2 H0 Ha0 Hb0 H1 Ha1 Hb1 H2 Ha2 Hb2.
    unfold chat_models. cbn [for_each]. unfold bind at 1. unfold chat_model.
    change (range config.MAX_RETRIES) with [0; 1; 2]. cbn [for_each].
    unfold bind at 1 2. rewrite (Hstatus 0 tr r0) by done.
    change (last_retry 0) with (@Continue pystr). cbn iota beta.
    unfold bind at 1. rewrite (Hstatus 1 _ r1);
      [|by rewrite count_posts_post|done|done].
    change (last_retry 1) with (@Continue pystr). cbn iota beta.
    unfold bind at 1. rewrite (Hstatus 2 _ r2);
      [|by rewrite !count_posts_post|done|done].
    change (last_retry 2) with (@Break pystr). cbn iota beta.
    unfold ret at 1. cbn iota beta. by rewrite <- !app_assoc.
  - intros e0 e1 e2 H0 H1 H2.
    unfold chat_models. cbn [for_each]. unfold bind at 1. unfold chat_model.
    change (range config.MAX_RETRIES) with [0; 1; 2]. cbn [for_each].
    unfold bind at 1 2. rewrite (Hraise 0 tr e0) by done.
    change (last_retry 0) with (@Continue pystr). cbn iota beta.
    change (0 =? config.MAX_RETRIES - 1) with false. cbn iota.
    unfold bind at 1. rewrite (Hraise 1 _ e1);
      [|by rewrite count_posts_app; cbn; rewrite Nat.add_1_r].
    change (last_retry 1) with (@Continue pystr). cbn iota beta.
    change (1 =? config.MAX_RETRIES - 1) with false. cbn iota.
    unfold bind at 1. rewrite (Hraise 2 _ e2);
      [|by rewrite !count_posts_app; cbn; rewrite !Nat.add_1_r].
    change (last_retry 2) with (@Break pystr). cbn iota beta.
    change (2 =? config.MAX_RETRIES - 1) with true. cbn iota.
    unfold ret at 1. cbn iota beta. by rewrite <- !app_assoc.
Qed.

(** X5.  [test_connection] reports success for every world: [chat]
    does not raise, so the [except] branch is never taken, and when no
    request is answered with 200 the report still says "success", with
    the unavailability sentence as the response. *)
Theorem test_connection_always_reports_success w self tr :
  exists text tr',
    test_connection w self tr
    = (Ok [ (py "status", VStr (py "success"));
            (py "message", VStr (py "Connection successful"));
            (py "response", VStr text);
            (py "api_key_valid", VBool true) ], tr')
    /\ ((forall n rq, not_200 (requests_post w n rq)) -> text = ALL_UNAVAILABLE).
Proof.
  destruct (chat_run w self
              (py "Hello, this is a test message. Please respond with 'Test successful!'")
              None (Some 50) None tr) as (text & tr' & Hrun & _).
  exists text, tr'. split.
  - unfold test_connection, try_except, bind. by rewrite Hrun.
  - intros Hno.
    destruct (chat_models_exhausted w self
                (chat_messages (py "Hello, this is a test message. Please respond with 'Test successful!'"))
                (int_or (Some 50) config.MAX_TOKENS)
                (float_or None config.TEMPERATURE)
                (models_to_try self None)
                (tr ++ [ChatCall (py "Hello, this is a test message. Please respond with 'Test successful!'")])
                Hno) as (evs & Hmodels & _).
    unfold chat, bind, emit in Hrun. cbn zeta in Hrun.
    rewrite Hmodels in Hrun. apply (f_equal fst) in Hrun. cbn [fst] in Hrun.
    symmetry. exact (Ok_inj _ _ Hrun).
Qed.

(** ** The response assembler: guards, order of the calls, failures *)

Section AssemblerFacts.
Context `{PyRuntime}.

(** X6.  The two guards of [generate_response] come before everything
    else: for a query that is empty or whitespace, and for a non-blank
    query on an uninitialized pipeline, the fixed message is returned
    and the trace is untouched, whatever the four callees would do. *)
Theorem generate_response_guards
    (analyze_query : pystr -> M analysis)
    (retrieve_context : pystr -> analysis -> M (list pystr))
    (create_enhanced_prompt : pystr -> list pystr -> analysis -> M pystr)
    (chat : pystr -> M pystr)
    (self : HarryPotterRAG) (query : pystr) (tr : trace) :
  let run := generate_response_with analyze_query retrieve_context
               create_enhanced_prompt chat self query tr in
  (truthy (strip query) = false -> run = (Ok PLEASE_ASK, tr))
  /\ (truthy (strip query) = true -> is_initialized self = false ->
      run = (Ok NOT_INITIALIZED, tr)).
Proof.
  intros run. subst run.
  unfold generate_response_with, generate_response_try, try_except.
  split.
  - intros ->. cbn [negb]. by rewrite orb_true_r.
  - intros Hquery Hinit. rewrite Hquery, Hinit.
    assert (Hq : truthy query = true).
    { destruct query; [|done]. by vm_compute in Hquery. }
    by rewrite Hq.
Qed.

Lemma generate_response_cases w self query tr :
  truthy (strip query) = true -> is_initialized self = true ->
  let query' := strip query in
  let a := analyze_query query' in
  let tr1 := tr ++ retriever_events w query' in
  generate_response w self query tr
  = match retrieved w query' with
    | Raise e => (Ok (spell_malfunction e), tr1)
    | Ok docs =>
        let context_parts := filtered_context (k_docs a) docs in
        if truthy context_parts then
          match chat w (groq_client w)
                  (create_enhanced_prompt query' context_parts a)
                  None None None tr1 with
          | (Ok response, tr2) =>
              (Ok (if truthy response
                      && negb (any_in error_words (str_lower response))
                   then enhanced_response response (length context_parts) a
                   else magical_response response), tr2)
          | (Raise e, tr2) => (Ok (spell_malfunction e), tr2)
          end
        else (Ok NO_INFORMATION, tr1)
    end.
Proof.
  intros Hquery Hinit query' a tr1.
  assert (Hq : truthy query = true).
  { destruct query; [|done]. by vm_compute in Hquery. }
  unfold generate_response, generate_response_with, generate_response_try,
    try_except.
  rewrite Hq, Hquery, Hinit. cbn [negb orb]. fold query'.
  unfold bind at 1. unfold ret at 1. fold a. unfold bind at 1.
  rewrite retrieve_context_run by done. fold tr1.
  destruct (retrieved w query') as [docs|e]; [|done].
  cbn zeta. destruct (truthy (filtered_context (k_docs a) docs)); cbn [negb]; [|done].
  unfold bind at 1. unfold ret at 1. unfold bind at 1.
  destruct (chat _ _ _ _ _ _ _) as [[response|e] tr2]; [|done].
  by destruct (truthy response && _).
Qed.

(** X7.  One call of [generate_response] asks the retriever at most
    once and calls the completion client at most once, in that order:
    the events it adds are the retriever's events for the stripped
    query, or none, followed by nothing or by one [ChatCall] with the
    requests and pauses of its loop; there is no client event without a
    retrieval before it. *)
Theorem generate_response_calls_in_order w self query tr :
  exists text evs_r evs_c,
    generate_response w self query tr = (Ok text, tr ++ evs_r ++ evs_c)
    /\ (evs_r = [] \/ evs_r = retriever_events w (strip query))
    /\ (evs_c = []
        \/ exists prompt evs,
             evs_c = ChatCall prompt :: evs
             /\ Forall (fun e => is_loop_event e = true) evs
             /\ evs_r = retriever_events w (strip query)).
Proof.
  destruct (truthy (strip query)) eqn:Hquery.
  2:{ exists PLEASE_ASK, [], []. rewrite !app_nil_r. split; [|by split; left].
      unfold generate_response.
      by apply (proj1 (generate_response_guards _ _ _ _ self query tr)). }
  destruct (is_initialized self) eqn:Hinit.
  2:{ exists NOT_INITIALIZED, [], []. rewrite !app_nil_r. split; [|by split; left].
      unfold generate_response.
      by apply (proj2 (generate_response_guards _ _ _ _ self query tr)). }
  rewrite generate_response_cases by done. cbn zeta.
  destruct (retrieved w (strip query)) as [docs|e].
  2:{ eexists _, _, []. rewrite app_nil_r. split; [done|]. split; [by right|by left]. }
  destruct (truthy (filtered_context _ docs)).
  2:{ eexists _, _, []. rewrite app_nil_r. split; [done|]. split; [by right|by left]. }
  set (prompt := create_enhanced_prompt _ _ _).
  destruct (chat_run w (groq_client w) prompt None None None
              (tr ++ retriever_events w (strip query)))
    as (text & tr2 & Hrun & Hcases).
  rewrite Hrun.
  assert (Hevs : exists evs, tr2 = (tr ++ retriever_events w (strip query))
                                   ++ ChatCall prompt :: evs
                 /\ Forall (fun e => is_loop_event e = true) evs).
  { assert (Hloop : forall P' e,
              loop_event w (groq_client w) (chat_messages prompt)
                (int_or None config.MAX_TOKENS) (float_or None config.TEMPERATURE)
                P' e -> is_loop_event e = true).
    { intros P' [] He; done. }
    destruct Hcases as [(evs & rq0 & reply0 & -> & _ & HP & _)|[_ (evs & -> & _ & HP)]].
    - exists (evs ++ [Post rq0 reply0]). rewrite <- !app_assoc. split; [done|].
      eapply Forall_impl; [exact HP|]. apply Hloop.
    - exists evs. rewrite <- !app_assoc. split; [done|].
      eapply Forall_impl; [exact HP|]. apply Hloop. }
  destruct Hevs as (evs & -> & Hloop).
  eexists _, (retriever_events w (strip query)), (ChatCall prompt :: evs).
  rewrite <- app_assoc. split; [done|]. split; [by right|].
  right. by exists prompt, evs.
Qed.

(** X8.  The degraded answer.  For a non-blank query on an initialized
    pipeline with context, when no request is answered with 200,
    [generate_response] returns the unavailability sentence after the
    plain "Magical Response" prefix, provided the runtime's [lower]
    leaves the word "unavailable" of that sentence readable. *)
Theorem generate_response_when_all_models_fail w self query tr docs :
  let query' := strip query in
  let a := analyze_query query' in
  truthy query' = true -> is_initialized self = true ->
  retrieved w query' = Ok docs ->
  truthy (filtered_context (k_docs a) docs) = true ->
  (forall n rq, not_200 (requests_post w n rq)) ->
  any_in error_words (str_lower ALL_UNAVAILABLE) = true ->
  (generate_response w self query tr).1 = Ok (magical_response ALL_UNAVAILABLE).
Proof.
  intros query' a Hquery Hinit Hdocs Hparts Hno Hlower.
  rewrite generate_response_cases by done. cbn zeta. fold query' a.
  rewrite Hdocs, Hparts.
  set (prompt := create_enhanced_prompt _ _ _).
  destruct (chat_models_exhausted w (groq_client w) (chat_messages prompt)
              (int_or None config.MAX_TOKENS) (float_or None config.TEMPERATURE)
              (models_to_try (groq_client w) None)
              ((tr ++ retriever_events w query') ++ [ChatCall prompt]) Hno)
    as (evs & Hmodels & _).
  unfold chat, bind, emit. cbn zeta. rewrite Hmodels. unfold ret. cbn [fst].
  by rewrite Hlower, andb_false_r.
Qed.


End AssemblerFacts.

(** ** The prompt composer *)

Lemma str_eqb_eq a b : str_eqb a b = true <-> a = b.
Proof.
  revert b. induction a as [|x a IH]; intros [|y b]; cbn; try done.
  rewrite andb_true_iff, N.eqb_eq, IH. split; [by intros [-> ->]|by intros [= -> ->]].
Qed.

Lemma dict_get_missing d key default :
  key ∉ d.*1 -> dict_get d key default = default.
Proof.
  induction d as [|[k v] d IH]; [done|]. cbn. intros Hnot.
  apply not_elem_of_cons in Hnot as [Hne Hnot].
  destruct (str_eqb k key) eqn:Heq; [|by apply IH].
  apply str_eqb_eq in Heq. congruence.
Qed.

(** X10.  A type without an entry in [type_instructions] gets the
    instruction of "general": the prompt is the one composed for the
    general type. *)
Theorem create_enhanced_prompt_unknown_type query context_parts a :
  type a ∉ type_instructions.*1 ->
  create_enhanced_prompt query context_parts a
  = create_enhanced_prompt query context_parts
      {| type := py "general"; k_docs := k_docs a; complexity := complexity a |}.
Proof.
  intros Hmissing. unfold create_enhanced_prompt. cbn [type].
  rewrite (dict_get_missing _ _ _ Hmissing).
  assert (Hgeneral :
    dict_get type_instructions (py "general")
      (dict_get type_instructions (py "general") [])
    = dict_get type_instructions (py "general") []) by (vm_compute; reflexivity).
  by rewrite Hgeneral.
Qed.

(** X11.  The classifier and the composer fit: every type that
    [analyze_query] returns has an entry of its own in
    [type_instructions], and the prompt composed for it contains that
    instruction as a list item, the question line with the query, and
    every context passage. *)
Theorem prompt_carries_instruction_query_and_context `{PyRuntime}
    query context_parts :
  let a := analyze_query query in
  let prompt := create_enhanced_prompt query context_parts a in
  exists instruction,
    (type a, instruction) ∈ type_instructions
    /\ contains prompt (py "- " ++ instruction)
    /\ contains prompt (py "**User Question:** " ++ query)
    /\ forall p, p ∈ context_parts -> contains prompt p.
Proof.
  intros a prompt.
  assert (Hcases : exists instruction,
            (type a, instruction) ∈ type_instructions
            /\ dict_get type_instructions (type a)
                 (dict_get type_instructions (py "general") []) = instruction).
  { subst a. unfold analyze_query.
    repeat match goal with |- context [any_in ?ws ?s] => destruct (any_in ws s) end;
      cbn [type]; eexists; (split; [|vm_compute; reflexivity]).
    - left.
    - right; left.
    - right; right; left.
    - right; right; right; left.
    - right; right; right; right; left. }
  destruct Hcases as (instruction & Hin & Hget).
  exists instruction. split; [exact Hin|].
  subst prompt. unfold create_enhanced_prompt. rewrite Hget.
  split; [|split].
  - apply contains_join. do 8 right. left.
  - apply contains_join. do 5 right. left.
  - intros p Hp. eapply contains_trans.
    + apply contains_join. do 3 right. left.
    + by apply contains_join.
Qed.

(** ** Statistics, initialization and the interface handler *)

(** Evaluate the comparisons of key literals in the goal. *)
Ltac eval_str_eqb :=
  repeat match goal with
  | |- context [str_eqb (py ?a) (py ?b)] =>
      let v := eval vm_compute in (str_eqb (py a) (py b)) in
      let E := fresh "E" in
      assert (E : str_eqb (py a) (py b) = v) by (vm_compute; reflexivity);
      rewrite E; clear E
  end.

(** X12.  [get_system_stats] returns a dictionary and never raises or
    reaches the completion client.  Uninitialized, it says
    "not_initialized" without asking the retriever.  Initialized, it
    asks for "test" once: a retriever that raises gives status "error"
    with the exception's text, and any answer, an empty one included,
    gives status "ready", with [is_functional] true exactly when a
    document came back. *)
Theorem get_system_stats_report w self tr :
  exists stats evs,
    get_system_stats w self tr = (Ok stats, tr ++ evs)
    /\ Forall (fun e => is_client_event e = false) evs
    /\ (is_initialized self = false ->
        stats = [ (py "status", VStr (py "not_initialized")) ] /\ evs = [])
    /\ (is_initialized self = true ->
        evs = retriever_events w (py "test")
        /\ match retrieved w (py "test") with
           | Ok docs =>
               getitem stats (py "status") = Some (VStr (py "ready"))
               /\ getitem stats (py "test_documents_found")
                  = Some (VInt (Z.of_nat (length docs)))
               /\ getitem stats (py "is_functional") = Some (VBool (truthy docs))
           | Raise e =>
               stats = [ (py "status", VStr (py "error"));
                         (py "error", VStr (exn_str e)) ]
           end).
Proof.
  unfold get_system_stats. destruct (is_initialized self); cbn [negb].
  - unfold try_except at 1. unfold bind. rewrite fetch_run.
    destruct (retrieved w (py "test")) as [docs|e]; eexists _, _;
      (split; [reflexivity|]); (split; [apply retriever_events_no_client|]);
      (split; [done|]); intros _; (split; [done|]); [|done].
    cbn [getitem]. eval_str_eqb. cbn iota. repeat split.
    f_equal. f_equal. by destruct docs.
  - exists [ (py "status", VStr (py "not_initialized")) ], [].
    rewrite app_nil_r. repeat split; done.
Qed.

Lemma try_test_queries_run h queries test_docs tr :
  exists docs evs,
    try_test_queries h queries test_docs tr = (Ok docs, tr ++ evs)
    /\ Forall (fun e => is_client_event e = false) evs
    /\ (truthy docs = true ->
        truthy test_docs = true
        \/ exists query, query ∈ queries /\ answers (host_world h) query docs).
Proof.
  revert test_docs tr. induction queries as [|query queries IH]; intros test_docs tr.
  - exists test_docs, []. rewrite app_nil_r. repeat split; [constructor|by left].
  - cbn [try_test_queries]. unfold bind at 1, try_except at 1.
    assert (Hstep : exists r,
      ((docs <- (if retriever_has_invoke h
                 then invoke (host_world h) query
                 else get_relevant_documents (host_world h) query) ;;
        ret (Some docs)) tr
       = (r, tr ++ [if retriever_has_invoke h then RetrieverInvoke query
                    else RetrieverGetRelevantDocuments query]))
      /\ match r with
         | Ok (Some docs) => answers (host_world h) query docs
         | Ok None => False
         | Raise _ => True
         end).
    { unfold bind, invoke, get_relevant_documents, emit, lift, ret, answers.
      destruct (retriever_has_invoke h).
      - destruct (retriever_invoke (host_world h) query) as [docs|e] eqn:Hr;
          eexists; (split; [reflexivity|]); [by left|done].
      - destruct (retriever_get_relevant_documents (host_world h) query)
          as [docs|e] eqn:Hr;
          eexists; (split; [reflexivity|]); [by right|done]. }
    destruct Hstep as (r & -> & Hr).
    set (ev := if retriever_has_invoke h then _ else _).
    assert (Hev : is_client_event ev = false).
    { subst ev. by destruct (retriever_has_invoke h). }
    destruct r as [[docs|]|e]; [|done|].
    + destruct (truthy docs) eqn:Hdocs.
      * exists docs, [ev]. repeat split; [by repeat constructor|].
        intros _. right. exists query. split; [by left|done].
      * destruct (IH docs (tr ++ [ev])) as (docs' & evs & Hrun & Hevs & Hfound).
        exists docs', (ev :: evs).
        rewrite Hrun, <- app_assoc. repeat split; [by constructor|].
        intros Ht. destruct (Hfound Ht) as [Hd|(q & Hq & Ha)]; [congruence|].
        right. exists q. split; [by right|done].
    + destruct (IH test_docs (tr ++ [ev])) as (docs' & evs & Hrun & Hevs & Hfound).
      exists docs', (ev :: evs). unfold ret at 1.
      rewrite Hrun, <- app_assoc. repeat split; [by constructor|].
      intros Ht. destruct (Hfound Ht) as [Hd|(q & Hq & Ha)]; [by left|].
      right. exists q. split; [by right|done].
Qed.

(** [initialize] in terms of the answers it gets. *)
Lemma initialize_run h self tr :
  initialize h self tr
  = if store_opens h self then
      let tr1 := tr ++ retriever_events (host_world h) (py "Harry Potter") in
      match retrieved (host_world h) (py "Harry Potter") with
      | Raise _ => (Ok (false, self), tr1)
      | Ok docs =>
          if truthy docs then (Ok (true, initialized self), tr1)
          else
            match try_test_queries h test_queries docs tr1 with
            | (Ok docs', tr2) =>
                (Ok (if truthy docs' then (true, initialized self)
                     else (false, self)), tr2)
            | (Raise _, tr2) => (Ok (false, self), tr2)
            end
      end
    else (Ok (false, self), tr).
Proof.
  unfold initialize, store_opens, try_except at 1.
  destruct (os_path_exists h (chroma_db_path self)); cbn [negb andb]; [|done].
  unfold bind at 1.
  destruct (sentence_transformers_installed h); cbn [andb]; [|done].
  unfold ret at 1. unfold bind at 1. unfold lift at 1.
  destruct (HuggingFaceEmbeddings h) as [[]|e]; cbn [is_ok andb]; [|done].
  unfold bind at 1. unfold lift at 1.
  destruct (Chroma h) as [[]|e]; cbn [is_ok andb]; [|done].
  unfold bind at 1. unfold lift at 1.
  destruct (as_retriever h) as [[]|e]; cbn [is_ok andb]; [|done].
  unfold bind at 1.
  assert (Hcount : forall tr0,
    try_except
      (count <- lift (collection_count h) ;;
       if count =? 0 then
         raise (Exn OtherException
                  (py "Collection '" ++ config_names.COLLECTION_NAME
                   ++ py "' is empty - no documents found in database"))
       else ret tt)
      (fun _ => ret tt) tr0 = (Ok tt, tr0)).
  { intros tr0. unfold try_except, bind, lift, raise, ret.
    destruct (collection_count h) as [count|e]; [|done].
    by destruct (count =? 0). }
  rewrite Hcount. unfold bind at 1. rewrite fetch_run.
  destruct (retrieved (host_world h) (py "Harry Potter")) as [docs|e]; [|done].
  cbn zeta. unfold bind at 1.
  destruct (truthy docs); cbn [negb]; [done|].
  unfold bind at 1.
  destruct (try_test_queries h test_queries docs _) as [[docs'|e] tr2]; [|done].
  by destruct (truthy docs').
Qed.

Lemma try_test_queries_count h count queries test_docs tr :
  try_test_queries (with_collection_count h count) queries test_docs tr
  = try_test_queries h queries test_docs tr.
Proof.
  revert test_docs tr. induction queries as [|query queries IH]; intros test_docs tr;
    [done|].
  cbn [try_test_queries with_collection_count retriever_has_invoke host_world].
  unfold bind at 1 3.
  destruct (try_except _ _ tr) as [[[docs|]|e] tr1]; [|by apply IH|done].
  destruct (truthy docs); [done|apply IH].
Qed.

Lemma initialize_flag_run h self tr :
  exists (ok : bool) evs,
    initialize h self tr
    = (Ok (ok, if ok then initialized self else self), tr ++ evs)
    /\ Forall (fun e => is_client_event e = false) evs
    /\ (os_path_exists h (chroma_db_path self) = false -> ok = false /\ evs = []).
Proof.
  rewrite initialize_run. unfold store_opens.
  destruct (os_path_exists h (chroma_db_path self)); cbn [andb].
  2:{ exists false, []. rewrite app_nil_r. repeat split; by try constructor. }
  destruct (_ && _).
  2:{ exists false, []. rewrite app_nil_r. repeat split; by try constructor. }
  cbn zeta.
  destruct (retrieved (host_world h) (py "Harry Potter")) as [docs|e].
  2:{ eexists false, _. split; [done|]. split; [apply retriever_events_no_client|done]. }
  destruct (truthy docs).
  { eexists true, _. split; [done|]. split; [apply retriever_events_no_client|done]. }
  destruct (try_test_queries_run h test_queries docs
              (tr ++ retriever_events (host_world h) (py "Harry Potter")))
    as (docs' & evs & -> & Hevs & _).
  exists (truthy docs'), (retriever_events (host_world h) (py "Harry Potter") ++ evs).
  rewrite app_assoc. split; [by destruct (truthy docs')|].
  split; [|done]. apply Forall_app. split; [apply retriever_events_no_client|done].
Qed.

(** X13.  [initialize] never raises: every failure comes back as
    [False], with the object unchanged; [True] comes with
    [is_initialized] set.  It does not reach the completion client, and
    when the database directory is missing it does not ask the
    retriever either. *)
Theorem initialize_returns_a_flag h self tr :
  exists (ok : bool) evs,
    initialize h self tr
    = (Ok (ok, if ok then initialized self else self), tr ++ evs)
    /\ Forall (fun e => is_client_event e = false) evs
    /\ (os_path_exists h (chroma_db_path self) = false -> ok = false /\ evs = []).
Proof. apply initialize_flag_run. Qed.

(** X14.  The collection count has no say: with any other answer of
    [_collection.count()], a zero or an exception included,
    [initialize] runs the same and returns the same. *)
Theorem initialize_ignores_the_collection_count h count self tr :
  initialize (with_collection_count h count) self tr = initialize h self tr.
Proof.
  rewrite !initialize_run. unfold store_opens.
  cbn [with_collection_count host_world os_path_exists
       sentence_transformers_installed HuggingFaceEmbeddings Chroma as_retriever].
  destruct (_ && _); [|done]. cbn zeta.
  destruct (retrieved (host_world h) (py "Harry Potter")) as [docs|e]; [|done].
  destruct (truthy docs); [done|].
  by rewrite try_test_queries_count.
Qed.

(** X15.  When [initialize] returns [True], the database directory
    exists, [sentence_transformers] is installed, the embedding model,
    the store and the retriever were built, and the retriever answered
    "Harry Potter" or one of the four test queries with at least one
    document. *)
Theorem initialize_success_means_documents h self tr self' tr' :
  initialize h self tr = (Ok (true, self'), tr') ->
  self' = initialized self
  /\ store_opens h self = true
  /\ exists query docs,
       query ∈ py "Harry Potter" :: test_queries
       /\ truthy docs = true
       /\ answers (host_world h) query docs.
Proof.
  rewrite initialize_run.
  destruct (store_opens h self); [|discriminate]. cbn zeta.
  unfold retrieved, answers.
  destruct (retriever_invoke (host_world h) (py "Harry Potter")) as [docs|e] eqn:Hinvoke.
  - destruct (truthy docs) eqn:Hdocs.
    + intros [= <- _]. repeat split. exists (py "Harry Potter"), docs.
      split; [by left|]. split; [done|by left].
    + destruct (try_test_queries_run h test_queries docs
                  (tr ++ retriever_events (host_world h) (py "Harry Potter")))
        as (docs' & evs & -> & _ & Hfound).
      destruct (truthy docs') eqn:Hdocs'; [|discriminate].
      intros [= <- _]. repeat split.
      destruct (Hfound eq_refl) as [Hd|(q & Hq & Ha)]; [congruence|].
      exists q, docs'. split; [by right|done].
  - destruct (exn_class_of e); try discriminate.
    destruct (retriever_get_relevant_documents (host_world h) (py "Harry Potter"))
      as [docs|e'] eqn:Hget; [|discriminate].
    destruct (truthy docs) eqn:Hdocs.
    + intros [= <- _]. repeat split. exists (py "Harry Potter"), docs.
      split; [by left|]. split; [done|by right].
    + destruct (try_test_queries_run h test_queries docs
                  (tr ++ retriever_events (host_world h) (py "Harry Potter")))
        as (docs' & evs & -> & _ & Hfound).
      destruct (truthy docs') eqn:Hdocs'; [|discriminate].
      intros [= <- _]. repeat split.
      destruct (Hfound eq_refl) as [Hd|(q & Hq & Ha)]; [congruence|].
      exists q, docs'. split; [by right|done].
Qed.

(** X16.  [initialize_system] never raises, and it reports success
    exactly when [initialize] returns [True] and the retriever then
    answers the query "test" without an exception; an answer with no
    document at all still counts. *)
Theorem initialize_system_outcome h self tr :
  exists (ok : bool) self' tr',
    initialize_system h self tr = (Ok (ok, self'), tr')
    /\ (ok = true <->
        (exists self1 tr1, initialize h self tr = (Ok (true, self1), tr1))
        /\ is_ok (retrieved (host_world h) (py "test")) = true).
Proof.
  destruct (initialize_flag_run h self tr) as (ok & evs & Hrun & _).
  unfold initialize_system, bind at 1. rewrite Hrun.
  destruct ok; cbn [negb].
  2:{ eexists false, _, _. split; [reflexivity|]. split; [done|].
      by intros [(self1 & tr1 & [=]) _]. }
  unfold bind, get_system_stats. cbn [initialized is_initialized negb].
  unfold try_except at 1. unfold bind. rewrite fetch_run.
  destruct (retrieved (host_world h) (py "test")) as [docs|e].
  - cbn [getitem]. eval_str_eqb. cbn iota.
    eexists true, _, _. split; [reflexivity|]. split; [|done].
    intros _. split; [by eexists _, _|done].
  - unfold ret at 1. cbn [getitem]. eval_str_eqb. cbn iota.
    eexists false, _, _. split; [reflexivity|]. split; [done|].
    by intros [_ [=]].
Qed.

(** X17.  The submit handler always returns a string.  For a query that
    is empty or whitespace it answers itself, without calling the
    pipeline function; for any other query, bound to
    [generate_response], it returns what [generate_response] returns
    and adds nothing: its own error message is never produced. *)
Theorem enhanced_rag_pipeline_handler `{PyRuntime} w self query tr :
  (forall rag_pipeline_func,
     exists text tr', enhanced_rag_pipeline rag_pipeline_func query tr = (Ok text, tr'))
  /\ (forall rag_pipeline_func,
        truthy (strip query) = false ->
        enhanced_rag_pipeline rag_pipeline_func query tr = (Ok ASK_ABOVE, tr))
  /\ (truthy (strip query) = true ->
      enhanced_rag_pipeline (generate_response w self) query tr
      = generate_response w self query tr).
Proof.
  split; [|split].
  - intros func. unfold enhanced_rag_pipeline.
    destruct (truthy (strip query)); cbn [negb]; [|by eexists _, _].
    unfold try_except, bind.
    destruct (func query tr) as [[text|e] tr']; by eexists _, _.
  - intros func Hblank. unfold enhanced_rag_pipeline. by rewrite Hblank.
  - intros Hquery. unfold enhanced_rag_pipeline. rewrite Hquery. cbn [negb].
    unfold try_except at 1. unfold bind.
    unfold generate_response, generate_response_with, try_except.
    by destruct (generate_response_try _ _ _ _ _ _ _) as [[text|e] tr'].
Qed.

Section ContextBound.
Context `{PyRuntime}.

Lemma analyze_query_k_docs query : 3 <= k_docs (analyze_query query) <= 6.
Proof.
  unfold analyze_query.
  repeat match goal with |- context [any_in ?ws ?s] => destruct (any_in ws s) end;
    cbn; lia.
Qed.

Lemma filtered_context_length max_docs docs :
  0 <= max_docs -> Z.of_nat (length (filtered_context max_docs docs)) <= max_docs.
Proof.
  intros Hk.
  assert (Hsub : filtered_context max_docs docs
                 `sublist_of` ((fun doc => strip (page_content doc))
                                 <$> slice_to max_docs docs)).
  { unfold filtered_context. etrans; [apply drop_seen_sublist|]. apply sublist_filter. }
  apply sublist_length in Hsub. rewrite length_fmap in Hsub.
  unfold slice_to in Hsub. rewrite (proj2 (Z.leb_le 0 max_docs) Hk) in Hsub.
  rewrite length_take in Hsub. lia.
Qed.

(** X18.  When [generate_response] reaches the completion client, it
    does so once, after the retrieval, with the prompt composed from
    the filtered passages, of which there are at least one and at most
    [k_docs], hence at most 6. *)
Theorem generate_response_prompt_is_bounded w self query tr docs :
  let query' := strip query in
  let a := analyze_query query' in
  let context_parts := filtered_context (k_docs a) docs in
  truthy query' = true -> is_initialized self = true ->
  retrieved w query' = Ok docs ->
  truthy context_parts = true ->
  (exists text evs,
     generate_response w self query tr
     = (Ok text,
        tr ++ retriever_events w query'
           ++ ChatCall (create_enhanced_prompt query' context_parts a) :: evs)
     /\ Forall (fun e => is_loop_event e = true) evs)
  /\ 1 <= Z.of_nat (length context_parts) <= k_docs a
  /\ k_docs a <= 6.
Proof.
  intros query' a context_parts Hquery Hinit Hdocs Hparts.
  pose proof (analyze_query_k_docs query') as Hk. fold a in Hk.
  split; [|split; [split|lia]].
  - rewrite generate_response_cases by done. cbn zeta.
    fold query' a. rewrite Hdocs. fold context_parts. rewrite Hparts.
    set (prompt := create_enhanced_prompt _ _ _).
    destruct (chat_run w (groq_client w) prompt None None None
                (tr ++ retriever_events w query'))
      as (text & tr2 & Hrun & Hcases).
    rewrite Hrun.
    assert (Hloop : forall P' e,
              loop_event w (groq_client w) (chat_messages prompt)
                (int_or None config.MAX_TOKENS) (float_or None config.TEMPERATURE)
                P' e -> is_loop_event e = true).
    { intros P' [] He; done. }
    destruct Hcases as [(evs & rq0 & reply0 & -> & _ & HP & _)|[_ (evs & -> & _ & HP)]].
    + eexists _, (evs ++ [Post rq0 reply0]). rewrite <- !app_assoc.
      split; [reflexivity|]. eapply Forall_impl; [exact HP|]. apply Hloop.
    + eexists _, evs. rewrite <- !app_assoc.
      split; [reflexivity|]. eapply Forall_impl; [exact HP|]. apply Hloop.
  - destruct context_parts; [discriminate|]. cbn [length]. lia.
  - apply filtered_context_length. lia.
Qed.

End ContextBound.

(** ** The program on concrete inputs *)

#[local] Existing Instance ascii_runtime.

Example py_emoji : py "🔍 ok" = [128269; 32; 111; 107]%N.
Proof. reflexivity. Qed.

Example py_wizard : py "🧙‍♂️" = [0x1F9D9; 0x200D; 0x2642; 0xFE0F]%N.
Proof. reflexivity. Qed.

Example strip_sides : strip (py "  a b  ") = py "a b".
Proof. reflexivity. Qed.

Example split_words :
  split (py " who  is harry ") = [py "who"; py "is"; py "harry"].
Proof. reflexivity. Qed.

Example title_of_type :
  title (replace_char 95 32 (py "character_analysis")) = py "Character Analysis".
Proof. reflexivity. Qed.

Example str_of_nat_digits : str_of_nat 0 = py "0" /\ str_of_nat 12 = py "12".
Proof. split; reflexivity. Qed.

Example join_three : join (py ", ") [py "a"; py "b"; py "c"] = py "a, b, c".
Proof. reflexivity. Qed.

Example blank_query :
  (generate_response rate_limited_world the_rag (py "   ") []) = (Ok PLEASE_ASK, [])
  /\ (generate_response rate_limited_world the_rag [] []) = (Ok PLEASE_ASK, []).
Proof. split; reflexivity. Qed.

Example uninitialized_pipeline :
  generate_response rate_limited_world fresh_rag hagrid_query []
  = (Ok NOT_INITIALIZED, []).
Proof. reflexivity. Qed.

Example rate_limited_answer :
  (generate_response rate_limited_world the_rag hagrid_query []).1
  = Ok (join nl
          [ py "🔮 **Magical Knowledge Retrieved:**";
            [];
            py "Hagrid is the gamekeeper.";
            [];
            py "---";
            py "✨ *Answer compiled from 2 relevant passages across the Harry Potter books*  ";
            py "🏰 *Query type: Character Analysis*" ]).
Proof. vm_compute. reflexivity. Qed.

(** C1 at a world with an empty store. *)
Lemma no_context_short_circuit_witness :
  exists evs,
    generate_response (scripted_world [] [] (http_status 500)) the_rag
      hagrid_query []
    = (Ok NO_INFORMATION, [] ++ evs)
    /\ Forall (fun e => is_client_event e = false) evs.
Proof.
  apply (@no_context_short_circuit ascii_runtime); vm_compute; reflexivity.
Defined.

(** C2 at a world that answers every request with 500. *)
Lemma chat_exhaustion_witness :
  exists evs,
    chat locked_world (groq_client locked_world) hagrid_query None None None []
    = (Ok ALL_UNAVAILABLE, [] ++ ChatCall hagrid_query :: evs)
    /\ count_posts evs = 12%nat.
Proof.
  apply (chat_exhaustion_returns_sentinel locked_world (groq_client locked_world)
           hagrid_query None None None []).
  intros n rq. cbn. lia.
Defined.

(** C3 at a world whose vector store raises. *)
Lemma generate_response_catches_witness :
  generate_response locked_world the_rag hagrid_query []
  = (Ok (spell_malfunction (Exn OtherException (py "database is locked"))),
     [RetrieverInvoke hagrid_query]).
Proof.
  unfold generate_response.
  eapply (proj1 (proj2 (proj2 (proj2 (@generate_response_catches_everything
            ascii_runtime _ _ _ _ the_rag hagrid_query [])) eq_refl eq_refl)));
    vm_compute; reflexivity.
Defined.

(** C4 refuted as stated: a passage of exactly 50 characters is not
    shorter than 50, and the code drops it. *)
Lemma fifty_character_passage_is_dropped :
  let w := scripted_world [Document passage_fifty] [] (http_status 500) in
  let a := @analyze_query ascii_runtime (py "Privet Drive") in
  length passage_fifty = 50%nat
  /\ (@retrieve_context ascii_runtime w the_rag (py "Privet Drive") (Some a) []).1
     = Ok []
  /\ @filtered_context_spec ascii_runtime (k_docs a) [Document passage_fifty]
     = [passage_fifty].
Proof. vm_compute. repeat split; reflexivity. Qed.

(** C4 at four ranked documents. *)
Lemma retrieve_context_filters_witness :
  (@retrieve_context ascii_runtime rate_limited_world the_rag hagrid_query
     (Some (analyze_query hagrid_query)) []).1
  = Ok [passage_hagrid; passage_snape].
Proof.
  destruct (@retrieve_context_filters ascii_runtime rate_limited_world the_rag
              hagrid_query (analyze_query hagrid_query) hagrid_docs []
              eq_refl eq_refl) as [-> _].
  vm_compute. reflexivity.
Defined.

(** C5 refuted as stated: a query that contains "compare" and a
    question word is a detail query. *)
Lemma compare_query_is_a_detail_query :
  let query := py "How does Harry compare to Draco?" in
  contains (ascii_lower query) (py "compare")
  /\ type (@analyze_query ascii_runtime query) = py "detail_query"
  /\ type (@analyze_query ascii_runtime query) <> py "comparison".
Proof.
  split; [|split].
  - apply str_in_contains. vm_compute. reflexivity.
  - vm_compute. reflexivity.
  - vm_compute. discriminate.
Qed.

(** C5 at a query with "vs" and no earlier keyword. *)
Lemma analyze_query_keywords_witness :
  type (@analyze_query ascii_runtime (py "Gryffindor VS Slytherin")) = py "comparison"
  /\ k_docs (@analyze_query ascii_runtime (py "Gryffindor VS Slytherin")) = 5.
Proof.
  apply (proj1 (proj2 (@analyze_query_keywords ascii_runtime
                         (py "Gryffindor VS Slytherin")))).
  - right. apply str_in_contains. vm_compute. reflexivity.
  - apply absent_words. vm_compute. reflexivity.
Defined.

(** C6 at a world that answers 429 three times and then 200. *)
Lemma chat_backoff_witness :
  let w := rate_limited_world in
  let self := groq_client w in
  let rq := chat_request self (chat_messages hagrid_query) config.MAX_TOKENS
              config.TEMPERATURE config.DEFAULT_LLM_MODEL in
  let rq' := chat_request self (chat_messages hagrid_query) config.MAX_TOKENS
               config.TEMPERATURE (py "mixtral-8x7b-32768") in
  chat w self hagrid_query None None None []
  = (Ok (py "Hagrid is the gamekeeper."),
     [ChatCall hagrid_query;
      Post rq (http_status 429); Sleep 1;
      Post rq (http_status 429); Sleep 2;
      Post rq (http_status 429); Sleep 4;
      Post rq' (http_ok (py "Hagrid is the gamekeeper."))]).
Proof.
  intros w self rq rq'.
  rewrite (proj1 (chat_backoff_and_first_success w self hagrid_query None None
                    None [] [] config.DEFAULT_LLM_MODEL config.FALLBACK_MODELS
                    [ChatCall hagrid_query] eq_refl eq_refl)
             _ _ _ eq_refl eq_refl eq_refl eq_refl eq_refl eq_refl).
  vm_compute. reflexivity.
Defined.

Example chat_backoff_then_success :
  (chat rate_limited_world (groq_client rate_limited_world) hagrid_query
     None None None []).1 = Ok (py "Hagrid is the gamekeeper.")
  /\ count_posts (chat rate_limited_world (groq_client rate_limited_world)
                    hagrid_query None None None []).2 = 4%nat.
Proof. vm_compute. split; reflexivity. Qed.

(** C7 on a pipeline that was never initialized and on an old retriever
    that finds nothing. *)
Lemma retrieve_context_witness :
  @retrieve_context ascii_runtime legacy_world fresh_rag hagrid_query None []
  = (Raise (Exn RuntimeError
              (py "RAG system not initialized. Call initialize() first.")), [])
  /\ @retrieve_context ascii_runtime legacy_world the_rag hagrid_query None []
     = (Ok [], [RetrieverInvoke hagrid_query;
                RetrieverGetRelevantDocuments hagrid_query]).
Proof.
  split.
  - exact (proj1 (@retrieve_context_uninitialized_or_empty ascii_runtime
                    legacy_world fresh_rag hagrid_query None []) eq_refl).
  - exact (proj2 (@retrieve_context_uninitialized_or_empty ascii_runtime
                    legacy_world the_rag hagrid_query None []) eq_refl eq_refl).
Defined.

(** C8 at a query with keywords of two categories: the earlier one
    decides. *)
Lemma analyze_query_first_match_witness :
  type (@analyze_query ascii_runtime (py "What happens at the Yule Ball?"))
  = py "plot_summary"
  /\ k_docs (@analyze_query ascii_runtime (py "What happens at the Yule Ball?")) = 6.
Proof.
  apply (proj1 (proj2 (@analyze_query_first_match_wins ascii_runtime
                         (py "What happens at the Yule Ball?")))
           (take 1 classifier_rules) _ _ _ (drop 2 classifier_rules) eq_refl).
  - repeat constructor.
  - vm_compute. reflexivity.
Defined.

(** C9 refuted as stated: the client succeeds with a text that mentions
    a failure, and the text comes back after the plain prefix, with no
    passage count and no query type. *)
Lemma failed_exam_answer_is_not_annotated :
  let w := failed_exam_world in
  let response := py "Hagrid failed to finish his third year at Hogwarts." in
  let a := @analyze_query ascii_runtime hagrid_query in
  let prompt := create_enhanced_prompt hagrid_query [passage_hagrid; passage_snape] a in
  let out := py "🧙‍♂️ **Magical Response:** Hagrid failed to finish his third year at Hogwarts." in
  (chat w (groq_client w) prompt None None None [RetrieverInvoke hagrid_query]).1
  = Ok response
  /\ (@generate_response ascii_runtime w the_rag hagrid_query []).1 = Ok out
  /\ str_in (py "relevant passages") out = false
  /\ str_in (py "Query type") out = false
  /\ forall num_sources a',
       out <> enhanced_response response num_sources a'.
Proof.
  repeat split; try (vm_compute; reflexivity).
  intros num_sources a'. vm_compute. discriminate.
Qed.

(** C9 at a world that answers after three rate limits. *)
Lemma completion_text_is_annotated_witness :
  (generate_response rate_limited_world the_rag hagrid_query []).1
  = Ok (join nl
          [ py "🔮 **Magical Knowledge Retrieved:**";
            [];
            py "Hagrid is the gamekeeper.";
            [];
            py "---";
            py "✨ *Answer compiled from 2 relevant passages across the Harry Potter books*  ";
            py "🏰 *Query type: Character Analysis*" ]).
Proof.
  destruct (@completion_text_is_annotated ascii_runtime rate_limited_world
              the_rag hagrid_query [] [passage_hagrid; passage_snape]
              [RetrieverInvoke hagrid_query] (py "Hagrid is the gamekeeper.")
              (chat rate_limited_world (groq_client rate_limited_world)
                 (create_enhanced_prompt hagrid_query
                    [passage_hagrid; passage_snape] (analyze_query hagrid_query))
                 None None None [RetrieverInvoke hagrid_query]).2
              ltac:(vm_compute; reflexivity) ltac:(vm_compute; reflexivity)
              ltac:(vm_compute; reflexivity) ltac:(vm_compute; reflexivity))
    as (out & Hrun & Hgood & _).
  rewrite Hrun. cbn [fst].
  destruct (Hgood ltac:(vm_compute; reflexivity) ltac:(vm_compute; reflexivity))
    as (-> & _).
  vm_compute. reflexivity.
Defined.

(** C10 on the requests of a call with both overrides at zero. *)
Lemma chat_falsy_overrides_witness :
  forallb
    (fun e =>
       match e with
       | Post rq _ =>
           (max_tokens (rq_json rq) =? 1500)
           && PrimFloat.eqb (temperature (rq_json rq)) config.TEMPERATURE
       | _ => true
       end)
    (chat locked_world (groq_client locked_world) hagrid_query None
       (Some 0) (Some 0%float) []).2 = true.
Proof.
  rewrite (proj1 (proj2 (proj2 (chat_falsy_overrides_are_defaults locked_world
                                  (groq_client locked_world) hagrid_query None)))).
  vm_compute. reflexivity.
Defined.

(** Under a hash that collides, a passage with a different prefix is
    dropped all the same: filter (b) compares hashes, not prefixes. *)
Example colliding_hashes_drop_a_distinct_passage :
  @filtered_context constant_hash_runtime 5
    [Document passage_hagrid; Document passage_snape] = [passage_hagrid].
Proof. vm_compute. reflexivity. Qed.

(** C6 refuted as stated: the first attempt is answered with HTTP 200,
    but the body lacks the content path; reading it raises inside the
    [try], and the client pauses a second and sends a second request
    instead of returning. *)
Example status_200_without_content_is_retried :
  let w := scripted_world [] [http_status 200; http_ok (py "Lumos.")]
             (http_status 500) in
  let rq := chat_request (groq_client w) (chat_messages hagrid_query)
              config.MAX_TOKENS config.TEMPERATURE config.DEFAULT_LLM_MODEL in
  (exists r, requests_post w 0 rq = Ok r /\ status_code r = 200)
  /\ chat w (groq_client w) hagrid_query None None None []
     = (Ok (py "Lumos."),
        [ChatCall hagrid_query; Post rq (http_status 200); Sleep 1;
         Post rq (http_ok (py "Lumos."))])
  /\ count_posts (chat w (groq_client w) hagrid_query None None None []).2 = 2%nat.
Proof.
  split; [by eexists|]. split; vm_compute; reflexivity.
Qed.

(** ** The surrounding code on concrete inputs *)

(** X3 on a call with an explicit model under rate limiting. *)
Lemma chat_requests_share_witness :
  let w := rate_limited_world in
  let rq := chat_request (groq_client w) (chat_messages hagrid_query)
              config.MAX_TOKENS config.TEMPERATURE (py "llama3-8b-8192") in
  (exists m, m ∈ models_to_try (groq_client w) (Some (py "llama3-8b-8192")) /\
     rq = chat_request (groq_client w) (chat_messages hagrid_query)
            (int_or None config.MAX_TOKENS) (float_or None config.TEMPERATURE) m)
  /\ (forall m, Some (py "llama3-8b-8192") = Some m -> truthy m = true ->
        model (rq_json rq) = m).
Proof.
  intros w rq.
  apply (chat_requests_share_the_call_parameters w (groq_client w) hagrid_query
           (Some (py "llama3-8b-8192")) None None []
           (chat w (groq_client w) hagrid_query (Some (py "llama3-8b-8192"))
              None None []).1
           (chat w (groq_client w) hagrid_query (Some (py "llama3-8b-8192"))
              None None []).2
           rq (http_status 429)).
  - by destruct (chat _ _ _ _ _ _ _).
  - apply list_elem_of_In. vm_compute. right. left. reflexivity.
Defined.

(** X4 on a world that answers every request with 500. *)
Lemma chat_retries_errors_witness :
  let w := locked_world in
  let self := groq_client w in
  let messages := chat_messages hagrid_query in
  let rq := chat_request self messages config.MAX_TOKENS config.TEMPERATURE
              config.DEFAULT_LLM_MODEL in
  chat_models w self messages config.MAX_TOKENS config.TEMPERATURE (models self) []
  = chat_models w self messages config.MAX_TOKENS config.TEMPERATURE
      config.FALLBACK_MODELS
      [Post rq (http_status 500); Post rq (http_status 500);
       Post rq (http_status 500)].
Proof.
  intros w self messages rq.
  apply (proj1 (chat_retries_errors_and_timeouts w self messages
                  config.MAX_TOKENS config.TEMPERATURE config.DEFAULT_LLM_MODEL
                  config.FALLBACK_MODELS []));
    first [reflexivity | cbn; lia].
Defined.

(** X6 on a pipeline that was never initialized. *)
Lemma generate_response_guards_witness :
  generate_response offline_world fresh_rag hagrid_query []
  = (Ok NOT_INITIALIZED, []).
Proof.
  unfold generate_response.
  apply (proj2 (@generate_response_guards ascii_runtime _ _ _ _ fresh_rag
                  hagrid_query []));
    vm_compute; reflexivity.
Defined.

(** X8 on a store that answers and an API that does not. *)
Lemma generate_response_all_models_fail_witness :
  (generate_response offline_world the_rag hagrid_query []).1
  = Ok (magical_response ALL_UNAVAILABLE).
Proof.
  apply (@generate_response_when_all_models_fail ascii_runtime offline_world
           the_rag hagrid_query [] hagrid_docs);
    try (vm_compute; reflexivity).
  intros n rq. unfold offline_world, scripted_world. cbn.
  destruct n; cbn; lia.
Defined.


(** X10 on a type that the classifier does not produce. *)
Lemma create_enhanced_prompt_unknown_type_witness :
  create_enhanced_prompt hagrid_query [passage_hagrid]
    {| type := py "spell_lookup"; k_docs := 2; complexity := 3 |}
  = create_enhanced_prompt hagrid_query [passage_hagrid]
      {| type := py "general"; k_docs := 2; complexity := 3 |}.
Proof.
  apply (create_enhanced_prompt_unknown_type hagrid_query [passage_hagrid]
           {| type := py "spell_lookup"; k_docs := 2; complexity := 3 |}).
  apply (bool_decide_unpack _). vm_compute. reflexivity.
Defined.

(** X15 on a host whose collection count is 0 and whose retriever
    answers. *)
Lemma initialize_success_witness :
  initialized fresh_rag = initialized fresh_rag
  /\ store_opens counting_zero_host fresh_rag = true
  /\ exists query docs,
       query ∈ py "Harry Potter" :: test_queries
       /\ truthy docs = true
       /\ answers (host_world counting_zero_host) query docs.
Proof.
  apply (initialize_success_means_documents counting_zero_host fresh_rag []
           (initialized fresh_rag) [RetrieverInvoke (py "Harry Potter")]).
  vm_compute. reflexivity.
Defined.

(** X18 on a store that answers and an API that does not. *)
Lemma generate_response_prompt_witness :
  1 <= Z.of_nat (length (filtered_context
                           (k_docs (analyze_query (strip hagrid_query)))
                           hagrid_docs))
    <= k_docs (analyze_query (strip hagrid_query))
  /\ k_docs (analyze_query (strip hagrid_query)) <= 6.
Proof.
  apply (@generate_response_prompt_is_bounded ascii_runtime offline_world the_rag
           hagrid_query [] hagrid_docs);
    vm_compute; reflexivity.
Defined.

Example initialize_on_an_empty_store :
  (initialize empty_store_host fresh_rag []).1 = Ok (false, fresh_rag)
  /\ length (initialize empty_store_host fresh_rag []).2 = 5%nat.
Proof. vm_compute. split; reflexivity. Qed.

Example initialize_without_database :
  initialize missing_database_host fresh_rag [] = (Ok (false, fresh_rag), []).
Proof. vm_compute. reflexivity. Qed.

Example test_connection_offline :
  (test_connection offline_world (groq_client offline_world) []).1
  = Ok [ (py "status", VStr (py "success"));
         (py "message", VStr (py "Connection successful"));
         (py "response", VStr ALL_UNAVAILABLE);
         (py "api_key_valid", VBool true) ].
Proof. vm_compute. reflexivity. Qed.

Example magical_response_text :
  magical_response (py "No.") = py "🧙‍♂️ **Magical Response:** No.".
Proof. vm_compute. reflexivity. Qed.

Example spell_malfunction_text :
  spell_malfunction (Exn OtherException (py "database is locked"))
  = py "🚨 **Spell Malfunction:** An error occurred in the magical pipeline: database is locked".
Proof. vm_compute. reflexivity. Qed.
